(** * LinkedIn-Post-Generator-Server: the four request handlers of [server.js]

    A shallow embedding of [src/server.js].  The handlers are sequential
    [async] functions that talk to four collaborators: the Supabase admin
    client (auth and the tables [users] and [scan_logs]), the [rss-parser]
    instance, [axios] (the completion API) and the process environment.

    - The two tables are state ([World]); every call that leaves the process
      is appended to a [trace], so that "no call was made" is a statement
      about the trace.
    - What a collaborator answers is not decided by this repository: it is
      read from an [Env] of oracles.  An answer is an [outcome]: the awaited
      promise resolves ([Returns]) or rejects ([Throws]).
    - Handlers run in the monad [M]: state passing plus exceptions, where the
      state survives a [throw] (an effect that happened before a rejection
      stays done), with [try_catch] for the source's [try]/[catch] blocks.

    Modelling decisions, all on the side of the collaborators:
    - a JSON field of the request body is either missing ([None], the
      source's [undefined]) or has the type the handler expects;
    - strings hold UTF-8 text;
    - timestamps are milliseconds since the epoch ([Z]); [toISOString]
      followed by [new Date(...)] or by the store's comparison is the
      identity on them;
    - the rules of the server's time zone are the runtime's: [LocalTZA] is
      read from the [Env], and [setHours] is computed from it the way
      ECMAScript defines it, so that daylight saving is whatever the zone
      has;
    - within one request the parser answers the same URL the same way. *)

From Stdlib Require Import ZArith List String Ascii Bool Lia.
Import ListNotations.

Local Open Scope string_scope.
Local Open Scope Z_scope.

(** ** The JavaScript operators the handlers use *)

Module JS.

(** A value that is a string or [undefined]. *)
Definition value : Type := option string.

(** String conversion inside a template literal. *)
Definition ToString (v : value) : string :=
  match v with
  | Some s => s
  | None => "undefined"
  end.

(** [!v] is false exactly for a non-empty string. *)
Definition truthy (v : value) : bool :=
  match v with
  | Some (String _ _) => true
  | _ => false
  end.

(** [a || b] *)
Definition or (a b : value) : value :=
  if truthy a then a else b.

(** [a || 'literal'], whose value is always a string. *)
Definition or_str (a : value) (d : string) : string :=
  match a with
  | Some (String c s) => String c s
  | _ => d
  end.

(** What [String.prototype.trim] removes at both ends: the WhiteSpace and
    LineTerminator code points of ECMAScript, here in UTF-8.  U+0009 to
    U+000D, U+0020, U+00A0, U+1680, U+2000 to U+200A, U+2028, U+2029,
    U+202F, U+205F, U+3000 and U+FEFF. *)
Definition white_space : list (list ascii) :=
  map (map ascii_of_nat)
    [ [9]; [10]; [11]; [12]; [13]; [32];
      [194; 160];
      [225; 154; 128];
      [226; 128; 128]; [226; 128; 129]; [226; 128; 130]; [226; 128; 131];
      [226; 128; 132]; [226; 128; 133]; [226; 128; 134]; [226; 128; 135];
      [226; 128; 136]; [226; 128; 137]; [226; 128; 138];
      [226; 128; 168]; [226; 128; 169];
      [226; 128; 175];
      [226; 129; 159];
      [227; 128; 128];
      [239; 187; 191] ]%nat.

(** [l] without its prefix [p], when it has that prefix. *)
Fixpoint strip (p l : list ascii) : option (list ascii) :=
  match p, l with
  | [], _ => Some l
  | a :: p', b :: l' => if Ascii.eqb a b then strip p' l' else None
  | _ :: _, [] => None
  end.

(** [l] without the first of the prefixes [ps] that it has. *)
Fixpoint strip_any (ps : list (list ascii)) (l : list ascii) : option (list ascii) :=
  match ps with
  | [] => None
  | p :: ps' =>
      match strip p l with
      | Some r => Some r
      | None => strip_any ps' l
      end
  end.

(** Prefixes among [ps] are removed as long as there is one, at most [n]
    times. *)
Fixpoint strip_all (n : nat) (ps : list (list ascii)) (l : list ascii) : list ascii :=
  match n with
  | O => l
  | S n' =>
      match strip_any ps l with
      | Some r => strip_all n' ps r
      | None => l
      end
  end.

(** Every removal takes at least one byte, so [length l] rounds are
    enough. *)
Definition trimStart (l : list ascii) : list ascii :=
  strip_all (List.length l) white_space l.

Definition trimEnd (l : list ascii) : list ascii :=
  rev (strip_all (List.length l) (map (@rev ascii) white_space) (rev l)).

Definition trim (s : string) : string :=
  string_of_list_ascii (trimEnd (trimStart (list_ascii_of_string s))).

(** [arr.join(sep)] on an array of strings. *)
Definition join (sep : string) (l : list string) : string :=
  String.concat sep l.

(** The line feed of the source's ["\n"]. *)
Definition LF : string := String (ascii_of_nat 10) EmptyString.

(** A [Date] is its time value, [None] for an invalid date.
    [a >= b] on two dates compares the time values; it is [false] as soon
    as one of them is [NaN]. *)
Definition Date : Type := option Z.

Definition Date_ge (a b : Date) : bool :=
  match a, b with
  | Some x, Some y => y <=? x
  | _, _ => false
  end.

Definition msPerDay : Z := 86400000.

(** [d.setHours(0, 0, 0, 0)] on a date whose time value is [t], as
    ECMAScript defines it.  [tza] is the runtime's [LocalTZA]: [tza t true]
    is the offset of local time at the instant [t], [tza t false] the offset
    for the local time [t].  The instant is taken to local time, cut to the
    start of its day, and taken back. *)
Definition setHours0 (tza : Z -> bool -> Z) (t : Z) : Z :=
  let localTime := t + tza t true in
  let date := msPerDay * (localTime / msPerDay) in
  date - tza date false.

End JS.

(** ** Data *)

(** An exception or an error object: only [message] is ever read. *)
Record Error : Type := { message : string }.

(** An awaited call either resolves or rejects. *)
Inductive outcome (A : Type) : Type :=
| Returns (a : A)
| Throws (e : Error).
Arguments Returns {A} a.
Arguments Throws {A} e.

(** An item of a parsed feed, with the fields the handler reads. *)
Module Item.
Record t : Type := {
  title : JS.value;
  link : JS.value;
  pubDate : JS.value;
  guid : JS.value;
  content : JS.value;
  contentSnippet : JS.value
}.
End Item.

Record Feed : Type := { items : list Item.t }.

(** The object pushed on [articles] (lines 124-130). *)
Module Article.
Record t : Type := {
  id : string;
  title : JS.value;
  link : JS.value;
  pubDate : JS.value;
  content : string
}.
End Article.

(** A row of [users]; only the column [id] is filtered on. *)
Module User.
Record t : Type := { id : string; email : string }.
End User.

(** A row of [scan_logs]. *)
Record ScanLog : Type := { scan_date : Z }.

(** The [{ data, error }] answer of a store query. *)
Record PgResult (A : Type) : Type := { data : option A; error : option Error }.
Arguments data {A} p.
Arguments error {A} p.

(** The part of the completion API's answer that is read:
    [data.choices[i].text]. *)
Record Choice : Type := { text : JS.value }.
Record Completion : Type := { choices : option (list Choice) }.

(** Request bodies after [express.json()]. *)
Record ValidateBody : Type := { url : JS.value }.
Record FetchBody : Type := {
  feeds : option (list string);
  openAiContext : JS.value
}.

(** What is sent back: [res.status(n).json(...)]. *)
Inductive Json : Type :=
| Message (message : string)
| ScanDone (scanDone : bool)
| Articles (articles : list Article.t) (topArticles : string).

Record Response : Type := { status : Z; body : Json }.

Definition json (n : Z) (b : Json) : Response := {| status := n; body := b |}.

(** ** Calls that leave the process *)

Inductive event : Type :=
| AuthDeleteUser (userId : string)
| UsersDelete (userId : string)
| ParseURL (url : JS.value)
| ScanLogsSelect (startOfToday : Z)
| CompletionPost (prompt : string)
| ScanLogsInsert (scan_date : Z).

(** The answers of the collaborators.  For a store query, [Returns None] is
    an answer without [error] (the store did what was asked) and
    [Returns (Some e)] an answer whose [error] is [e] (nothing was done). *)
Record Env : Type := {
  (* process.env.OPENAI_API_KEY: a string, or [None] when it is not set *)
  OPENAI_API_KEY : JS.value;
  (* the runtime's LocalTZA(t, isUTC): local time minus UTC in milliseconds,
     at the instant [t] when [isUTC], for the local time [t] otherwise *)
  LocalTZA : Z -> bool -> Z;
  (* how long each call takes *)
  latency : event -> Z;
  (* the runtime's [Date.parse], [None] for [NaN] *)
  Date_parse : string -> JS.Date;
  (* rss-parser: a feed, nothing ([null] or [undefined]), or an exception *)
  parseURL : JS.value -> outcome (option Feed);
  (* the [error] of the auth subsystem for [deleteUser(userId)] *)
  auth_deleteUser : string -> outcome (option Error);
  (* the [error] of the store for each of the three queries *)
  users_delete : string -> outcome (option Error);
  scan_logs_select : Z -> outcome (option Error);
  scan_logs_insert : Z -> outcome (option Error);
  (* the completion API, by prompt *)
  axios_post : string -> outcome Completion
}.

Record World : Type := {
  users : list User.t;
  scan_logs : list ScanLog;
  clock : Z;
  trace : list event
}.

(** ** The monad of the handlers *)

Definition M (A : Type) : Type := World -> outcome A * World.

Definition ret {A : Type} (a : A) : M A := fun w => (Returns a, w).

Definition throw {A : Type} (e : Error) : M A := fun w => (Throws e, w).

Definition bind {A B : Type} (m : M A) (k : A -> M B) : M B :=
  fun w =>
    match m w with
    | (Returns a, w') => k a w'
    | (Throws e, w') => (Throws e, w')
    end.

Definition try_catch {A : Type} (m : M A) (h : Error -> M A) : M A :=
  fun w =>
    match m w with
    | (Returns a, w') => (Returns a, w')
    | (Throws e, w') => h e w'
    end.

Declare Scope handler_scope.
Delimit Scope handler_scope with handler.
Notation "x <- m ;; k" := (bind m (fun x => k))
  (at level 100, m at next level, right associativity) : handler_scope.
Notation "m ;;; k" := (bind m (fun _ => k))
  (at level 100, right associativity) : handler_scope.
Local Open Scope handler_scope.

Section Handlers.

Variable env : Env.

(** A call is recorded and takes time. *)
Definition tick (ev : event) (w : World) : World :=
  {| users := users w;
     scan_logs := scan_logs w;
     clock := clock w + latency env ev;
     trace := (trace w ++ [ev])%list |}.

Definition ticks (evs : list event) (w : World) : World :=
  fold_left (fun w ev => tick ev w) evs w.

(** [new Date()] *)
Definition new_Date : M Z := fun w => (Returns (clock w), w).

(** [new Date(v)] for a string or [undefined]. *)
Definition Date_of (v : JS.value) : JS.Date :=
  match v with
  | Some s => Date_parse env s
  | None => None
  end.

(** [supabaseAdmin.auth.admin.deleteUser(userId)], read for its [error]. *)
Definition auth_admin_deleteUser (userId : string) : M (option Error) :=
  fun w => (auth_deleteUser env userId, tick (AuthDeleteUser userId) w).

(** [from('users').delete().eq('id', userId).select('*')]: the rows whose
    [id] is [userId] are removed and come back as [data]. *)
Definition from_users_delete_eq_id (userId : string) : M (PgResult (list User.t)) :=
  fun w =>
    let w' := tick (UsersDelete userId) w in
    match users_delete env userId with
    | Throws e => (Throws e, w')
    | Returns (Some e) => (Returns {| data := None; error := Some e |}, w')
    | Returns None =>
        let hit := fun u => String.eqb (User.id u) userId in
        (Returns {| data := Some (filter hit (users w)); error := None |},
         {| users := filter (fun u => negb (hit u)) (users w);
            scan_logs := scan_logs w';
            clock := clock w';
            trace := trace w' |})
    end.

(** [from('scan_logs').select('*').gte('scan_date', startOfToday)] *)
Definition from_scan_logs_select_gte (startOfToday : Z) : M (PgResult (list ScanLog)) :=
  fun w =>
    let w' := tick (ScanLogsSelect startOfToday) w in
    match scan_logs_select env startOfToday with
    | Throws e => (Throws e, w')
    | Returns (Some e) => (Returns {| data := None; error := Some e |}, w')
    | Returns None =>
        (Returns {| data := Some (filter (fun r => startOfToday <=? scan_date r)
                                         (scan_logs w));
                    error := None |}, w')
    end.

(** [from('scan_logs').insert([{ scan_date }])] *)
Definition from_scan_logs_insert (d : Z) : M (PgResult unit) :=
  fun w =>
    let w' := tick (ScanLogsInsert d) w in
    match scan_logs_insert env d with
    | Throws e => (Throws e, w')
    | Returns (Some e) => (Returns {| data := None; error := Some e |}, w')
    | Returns None =>
        (Returns {| data := None; error := None |},
         {| users := users w';
            scan_logs := (scan_logs w ++ [ {| scan_date := d |} ])%list;
            clock := clock w';
            trace := trace w' |})
    end.

(** [parser.parseURL(url)] *)
Definition parser_parseURL (u : JS.value) : M (option Feed) :=
  fun w => (parseURL env u, tick (ParseURL u) w).

(** [axios.post('https://api.openai.com/v1/completions', { prompt, ... })] *)
Definition axios_post_completions (prompt : string) : M Completion :=
  fun w => (axios_post env prompt, tick (CompletionPost prompt) w).

(** *** DELETE /delete-user/:userId (lines 22-61) *)

(** Lines 39-56. *)
Definition delete_user_row (userId : string) : M Response :=
  r <- from_users_delete_eq_id userId ;;
  match error r with
  | Some e =>
      ret (json 500 (Message ("Failed to delete user from users table: " ++ message e)))
  | None =>
      match data r with
      | None | Some [] =>
          ret (json 404 (Message "No user was deleted from users table. Please ensure the user exists and you have the right permissions."))
      | Some (_ :: _) =>
          ret (json 200 (Message "User deleted successfully from both authentication and users table."))
      end
  end.

Definition delete_user (userId : string) : M Response :=
  try_catch
    (authError <- auth_admin_deleteUser userId ;;
     match authError with
     | Some e =>
         if String.eqb (message e) "User not found"
         then delete_user_row userId
         else ret (json 500 (Message ("Failed to delete user from authentication: " ++ message e)))
     | None => delete_user_row userId
     end)
    (fun _ => ret (json 500 (Message "Unexpected error occurred while deleting user."))).

(** *** POST /validate-feed (lines 64-78) *)

Definition validate_feed (b : ValidateBody) : M Response :=
  try_catch
    (feed <- parser_parseURL (url b) ;;
     match feed with
     | None => ret (json 400 (Message "Invalid RSS feed format"))
     | Some _ => ret (json 200 (Message "RSS feed is valid"))
     end)
    (fun _ => ret (json 500 (Message "Error parsing RSS feed"))).

(** *** GET /check-scan (lines 81-105) *)

(** Lines 83-84 and 112-113. *)
Definition startOfToday : M Z :=
  today <- new_Date ;;
  ret (JS.setHours0 (LocalTZA env) today).

Definition check_scan : M Response :=
  try_catch
    (start <- startOfToday ;;
     r <- from_scan_logs_select_gte start ;;
     match error r with
     | Some _ => ret (json 500 (Message "Error checking scan logs."))
     | None =>
         match data r with
         | None | Some [] => ret (json 200 (ScanDone false))
         | Some (_ :: _) => ret (json 200 (ScanDone true))
         end
     end)
    (fun _ => ret (json 500 (Message "Unexpected error occurred while checking scan logs."))).

(** *** POST /fetch-articles (lines 108-185) *)

(** The filter of line 120. *)
Definition isToday (start : Z) (item : Item.t) : bool :=
  JS.Date_ge (Date_of (Item.pubDate item)) (Some start).

(** Lines 123-130. *)
Definition mkArticle (feedUrl : string) (item : Item.t) : Article.t :=
  {| Article.id := feedUrl ++ "_" ++ JS.ToString (Item.guid item);
     Article.title := Item.title item;
     Article.link := Item.link item;
     Article.pubDate := Item.pubDate item;
     Article.content :=
       JS.or_str (JS.or (Item.content item) (Item.contentSnippet item)) EmptyString |}.

(** [feed.items] is a [TypeError] on a feed that is [null] or [undefined]. *)
Definition feed_items (feed : option Feed) : M (list Item.t) :=
  match feed with
  | Some f => ret (items f)
  | None => throw {| message := "Cannot read properties of undefined (reading 'items')" |}
  end.

(** The loop of lines 117-137.  [inl] is the early [return] of line 135,
    [inr] the array [articles] when the loop ends. *)
Fixpoint feed_loop (start : Z) (fs : list string) (articles : list Article.t)
  : M (Response + list Article.t) :=
  match fs with
  | [] => ret (inr articles)
  | feedUrl :: rest =>
      r <- try_catch
             (feed <- parser_parseURL (Some feedUrl) ;;
              its <- feed_items feed ;;
              let todayItems := filter (isToday start) its in
              ret (inr (articles ++ map (mkArticle feedUrl) todayItems)%list))
             (fun _ =>
                ret (inl (json 500 (Message ("Error fetching articles from " ++ feedUrl))))) ;;
      match r with
      | inl resp => ret (inl resp)
      | inr articles' => feed_loop start rest articles'
      end
  end.

(** [for (const feedUrl of feeds)] on a missing [feeds] is a [TypeError]. *)
Definition iterable (fs : option (list string)) : M (list string) :=
  match fs with
  | Some l => ret l
  | None => throw {| message := "feeds is not iterable" |}
  end.

(** Line 140. *)
Definition prompt (openAiContext : JS.value) : string :=
  "You act as an editor of the newsfeed and your job is to pick "
  ++ JS.ToString openAiContext
  ++ ". You will be given article previews. When responding, list top 3 article IDs (as a comma-separated list - no text is necessary) you feel are the most prominent. "
  ++ JS.LF ++ JS.LF.

(** Line 141. *)
Definition articleBlock (a : Article.t) : string :=
  "***ID " ++ Article.id a ++ ": " ++ JS.LF ++ Article.content a ++ JS.LF ++ "***".

Definition promptText (articles : list Article.t) : string :=
  JS.join JS.LF (map articleBlock articles).

(** Line 168: [openAiResponse.data.choices[0].text.trim()]. *)
Definition firstChoiceText (d : Completion) : M string :=
  match choices d with
  | None => throw {| message := "Cannot read properties of undefined (reading '0')" |}
  | Some cs =>
      match nth_error cs 0 with
      | None => throw {| message := "Cannot read properties of undefined (reading 'text')" |}
      | Some c =>
          match text c with
          | None => throw {| message := "Cannot read properties of undefined (reading 'trim')" |}
          | Some t => ret (JS.trim t)
          end
      end
  end.

(** Lines 139-179, with [articles] as the loop left it. *)
Definition rank_and_log (openAiContext : JS.value) (articles : list Article.t)
  : M Response :=
  if negb (JS.truthy (OPENAI_API_KEY env))
  then ret (json 500 (Message "OpenAI API key is not set."))
  else
    try_catch
      (openAiResponse <- axios_post_completions (prompt openAiContext ++ promptText articles) ;;
       topArticles <- firstChoiceText openAiResponse ;;
       now <- new_Date ;;
       from_scan_logs_insert now ;;;
       ret (json 200 (Articles articles topArticles)))
      (fun _ => ret (json 500 (Message "Error during OpenAI request"))).

Definition fetch_articles (b : FetchBody) : M Response :=
  try_catch
    (start <- startOfToday ;;
     fs <- iterable (feeds b) ;;
     r <- feed_loop start fs [] ;;
     match r with
     | inl resp => ret resp
     | inr articles => rank_and_log (openAiContext b) articles
     end)
    (fun _ => ret (json 500 (Message "Error fetching articles"))).

End Handlers.

(** ** Worlds and collaborators used to run the handlers on concrete inputs *)

Module Fixture.

Definition feedA : string := "https://a.example/rss".
Definition feedB : string := "https://b.example/rss".

(** 2024-05-02T00:00:00.000Z; the server of [env_ok] has UTC as local time. *)
Definition midnight : Z := 1714608000000.
Definition noon : Z := midnight + 43200000.

Definition item (g : string) (d : string) (c s : JS.value) : Item.t :=
  {| Item.title := Some ("title " ++ g);
     Item.link := Some ("https://example/" ++ g);
     Item.pubDate := Some d;
     Item.guid := Some g;
     Item.content := c;
     Item.contentSnippet := s |}.

(** The dates the feeds below use. *)
Definition parse_date (s : string) : JS.Date :=
  if String.eqb s "today 09:00" then Some (midnight + 32400000)
  else if String.eqb s "today 00:00" then Some midnight
  else if String.eqb s "yesterday 23:59" then Some (midnight - 60000)
  else None.

(** Feed A: one item of today, one of yesterday.  Feed B: one of today. *)
Definition parse (u : JS.value) : outcome (option Feed) :=
  match u with
  | Some s =>
      if String.eqb s feedA then
        Returns (Some {| items := [ item "a1" "today 09:00" (Some "full text a1") (Some "snip a1");
                                    item "a2" "yesterday 23:59" (Some "full text a2") None ] |})
      else if String.eqb s feedB then
        Returns (Some {| items := [ item "b1" "today 00:00" None (Some "snip b1") ] |})
      else Throws {| message := "getaddrinfo ENOTFOUND" |}
  | None => Throws {| message := "Cannot read properties of undefined (reading 'indexOf')" |}
  end.

(** A completion text between a no-break space (U+00A0), a line feed, an
    ideographic space (U+3000) and a carriage return with line feed. *)
Definition padded : string :=
  string_of_list_ascii (map ascii_of_nat [194; 160; 10]%nat)
  ++ "a1, b1"
  ++ string_of_list_ascii (map ascii_of_nat [227; 128; 128; 13; 10]%nat).

Definition completion (t : string) : Completion :=
  {| choices := Some [ {| text := Some t |} ] |}.

(** Every collaborator answers without an error. *)
Definition env_ok : Env :=
  {| OPENAI_API_KEY := Some "sk-test";
     LocalTZA := fun _ _ => 0;
     latency := fun _ => 5;
     Date_parse := parse_date;
     parseURL := parse;
     auth_deleteUser := fun _ => Returns None;
     users_delete := fun _ => Returns None;
     scan_logs_select := fun _ => Returns None;
     scan_logs_insert := fun _ => Returns None;
     axios_post := fun _ => Returns (completion " a1, b1 ") |}.

Definition with_auth (a : outcome (option Error)) (e : Env) : Env :=
  {| OPENAI_API_KEY := OPENAI_API_KEY e; LocalTZA := LocalTZA e;
     latency := latency e; Date_parse := Date_parse e; parseURL := parseURL e;
     auth_deleteUser := fun _ => a;
     users_delete := users_delete e; scan_logs_select := scan_logs_select e;
     scan_logs_insert := scan_logs_insert e; axios_post := axios_post e |}.

Definition with_users_delete (a : outcome (option Error)) (e : Env) : Env :=
  {| OPENAI_API_KEY := OPENAI_API_KEY e; LocalTZA := LocalTZA e;
     latency := latency e; Date_parse := Date_parse e; parseURL := parseURL e;
     auth_deleteUser := auth_deleteUser e;
     users_delete := fun _ => a; scan_logs_select := scan_logs_select e;
     scan_logs_insert := scan_logs_insert e; axios_post := axios_post e |}.

Definition with_select (a : outcome (option Error)) (e : Env) : Env :=
  {| OPENAI_API_KEY := OPENAI_API_KEY e; LocalTZA := LocalTZA e;
     latency := latency e; Date_parse := Date_parse e; parseURL := parseURL e;
     auth_deleteUser := auth_deleteUser e;
     users_delete := users_delete e; scan_logs_select := fun _ => a;
     scan_logs_insert := scan_logs_insert e; axios_post := axios_post e |}.

Definition with_insert (a : outcome (option Error)) (e : Env) : Env :=
  {| OPENAI_API_KEY := OPENAI_API_KEY e; LocalTZA := LocalTZA e;
     latency := latency e; Date_parse := Date_parse e; parseURL := parseURL e;
     auth_deleteUser := auth_deleteUser e;
     users_delete := users_delete e; scan_logs_select := scan_logs_select e;
     scan_logs_insert := fun _ => a; axios_post := axios_post e |}.

Definition with_key (k : JS.value) (e : Env) : Env :=
  {| OPENAI_API_KEY := k; LocalTZA := LocalTZA e;
     latency := latency e; Date_parse := Date_parse e; parseURL := parseURL e;
     auth_deleteUser := auth_deleteUser e;
     users_delete := users_delete e; scan_logs_select := scan_logs_select e;
     scan_logs_insert := scan_logs_insert e; axios_post := axios_post e |}.

Definition with_axios (a : outcome Completion) (e : Env) : Env :=
  {| OPENAI_API_KEY := OPENAI_API_KEY e; LocalTZA := LocalTZA e;
     latency := latency e; Date_parse := Date_parse e; parseURL := parseURL e;
     auth_deleteUser := auth_deleteUser e;
     users_delete := users_delete e; scan_logs_select := scan_logs_select e;
     scan_logs_insert := scan_logs_insert e; axios_post := fun _ => a |}.

(** The rules of America/New_York in 2024: five hours behind UTC, four
    from 2024-03-10T07:00Z to 2024-11-03T06:00Z.  A local time that the
    change skips is read with the offset before it, one that occurs twice
    as the earlier instant. *)
Definition new_york_2024 (t : Z) (isUTC : bool) : Z :=
  if isUTC
  then if (1710054000000 <=? t) && (t <? 1730613600000) then -14400000 else -18000000
  else if (1710039600000 <=? t) && (t <? 1730599200000) then -14400000 else -18000000.

Definition with_zone (z : Z -> bool -> Z) (e : Env) : Env :=
  {| OPENAI_API_KEY := OPENAI_API_KEY e; LocalTZA := z;
     latency := latency e; Date_parse := Date_parse e; parseURL := parseURL e;
     auth_deleteUser := auth_deleteUser e;
     users_delete := users_delete e; scan_logs_select := scan_logs_select e;
     scan_logs_insert := scan_logs_insert e; axios_post := axios_post e |}.

Definition alice : User.t := {| User.id := "u1"; User.email := "alice@example.org" |}.
Definition bob : User.t := {| User.id := "u2"; User.email := "bob@example.org" |}.

(** Noon of the day, two users, one scan of the day before. *)
Definition world : World :=
  {| users := [alice; bob];
     scan_logs := [ {| scan_date := midnight - 1 |} ];
     clock := noon;
     trace := [] |}.

Definition with_scan_logs (l : list ScanLog) (w : World) : World :=
  {| users := users w; scan_logs := l; clock := clock w; trace := trace w |}.

Definition at_time (t : Z) (w : World) : World :=
  {| users := users w; scan_logs := scan_logs w; clock := t; trace := trace w |}.

End Fixture.

(** ** What the statements below are about *)

(** The auth step lets the handler go on: no error, or the error
    ['User not found'] (lines 30-37). *)
Definition auth_step_continues (env : Env) (userId : string) : bool :=
  match auth_deleteUser env userId with
  | Returns None => true
  | Returns (Some e) => String.eqb (message e) "User not found"
  | Throws _ => false
  end.

(** The parser gives a feed object for this URL. *)
Definition feed_parses (env : Env) (feedUrl : string) : bool :=
  match parseURL env (Some feedUrl) with
  | Returns (Some _) => true
  | _ => false
  end.

(** The items of the feed behind a URL that parses. *)
Definition items_of (env : Env) (feedUrl : string) : list Item.t :=
  match parseURL env (Some feedUrl) with
  | Returns (Some f) => items f
  | _ => []
  end.

(** The parser calls for a list of feed URLs, in order. *)
Definition parse_calls (fs : list string) : list event :=
  map (fun u => ParseURL (Some u)) fs.

(** The text of the first completion, when the call came back with one. *)
Definition completion_text (o : outcome Completion) : option string :=
  match o with
  | Returns d =>
      match choices d with
      | Some (c :: _) => text c
      | _ => None
      end
  | Throws _ => None
  end.

(** The scan-log store after one more row. *)
Definition logged (d : Z) (w : World) : World :=
  {| users := users w;
     scan_logs := (scan_logs w ++ [ {| scan_date := d |} ])%list;
     clock := clock w;
     trace := trace w |}.

(** The articles of today's items of the given feeds: feed after feed, and
    inside a feed item after item. *)
Definition todayArticles (env : Env) (start : Z) (fs : list string) : list Article.t :=
  flat_map (fun u => map (mkArticle u) (filter (isToday env start) (items_of env u))) fs.

(** Every run of the handler is one of seven: [feeds] is missing; a feed
    does not parse; the credential is missing; the completion call gives no
    text; the insert throws; the store refuses the insert (which the handler
    does not look at); the row is written. *)
Inductive fetch_run (env : Env) (b : FetchBody) (w : World)
  : outcome Response * World -> Prop :=
| run_no_feeds :
    feeds b = None ->
    fetch_run env b w (Returns (json 500 (Message "Error fetching articles")), w)
| run_feed_fails (pre : list string) (u : string) (post : list string) :
    feeds b = Some (pre ++ u :: post)%list ->
    forallb (feed_parses env) pre = true ->
    feed_parses env u = false ->
    fetch_run env b w
      (Returns (json 500 (Message ("Error fetching articles from " ++ u))),
       ticks env (parse_calls (pre ++ [u])) w)
| run_no_key (fs : list string) :
    feeds b = Some fs ->
    forallb (feed_parses env) fs = true ->
    JS.truthy (OPENAI_API_KEY env) = false ->
    fetch_run env b w
      (Returns (json 500 (Message "OpenAI API key is not set.")),
       ticks env (parse_calls fs) w)
| run_no_text (fs : list string) (p : string) :
    feeds b = Some fs ->
    forallb (feed_parses env) fs = true ->
    JS.truthy (OPENAI_API_KEY env) = true ->
    p = prompt (openAiContext b)
        ++ promptText (todayArticles env (JS.setHours0 (LocalTZA env) (clock w)) fs) ->
    completion_text (axios_post env p) = None ->
    fetch_run env b w
      (Returns (json 500 (Message "Error during OpenAI request")),
       ticks env (parse_calls fs ++ [CompletionPost p]) w)
| run_insert_throws (fs : list string) (p t : string) (d : Z) (e : Error) :
    feeds b = Some fs ->
    forallb (feed_parses env) fs = true ->
    JS.truthy (OPENAI_API_KEY env) = true ->
    p = prompt (openAiContext b)
        ++ promptText (todayArticles env (JS.setHours0 (LocalTZA env) (clock w)) fs) ->
    completion_text (axios_post env p) = Some t ->
    d = clock (ticks env (parse_calls fs ++ [CompletionPost p]) w) ->
    scan_logs_insert env d = Throws e ->
    fetch_run env b w
      (Returns (json 500 (Message "Error during OpenAI request")),
       ticks env (parse_calls fs ++ [CompletionPost p; ScanLogsInsert d]) w)
| run_insert_error (fs : list string) (p t : string) (d : Z) (e : Error) :
    feeds b = Some fs ->
    forallb (feed_parses env) fs = true ->
    JS.truthy (OPENAI_API_KEY env) = true ->
    p = prompt (openAiContext b)
        ++ promptText (todayArticles env (JS.setHours0 (LocalTZA env) (clock w)) fs) ->
    completion_text (axios_post env p) = Some t ->
    d = clock (ticks env (parse_calls fs ++ [CompletionPost p]) w) ->
    scan_logs_insert env d = Returns (Some e) ->
    fetch_run env b w
      (Returns (json 200 (Articles
                            (todayArticles env (JS.setHours0 (LocalTZA env) (clock w)) fs)
                            (JS.trim t))),
       ticks env (parse_calls fs ++ [CompletionPost p; ScanLogsInsert d]) w)
| run_logged (fs : list string) (p t : string) (d : Z) :
    feeds b = Some fs ->
    forallb (feed_parses env) fs = true ->
    JS.truthy (OPENAI_API_KEY env) = true ->
    p = prompt (openAiContext b)
        ++ promptText (todayArticles env (JS.setHours0 (LocalTZA env) (clock w)) fs) ->
    completion_text (axios_post env p) = Some t ->
    d = clock (ticks env (parse_calls fs ++ [CompletionPost p]) w) ->
    scan_logs_insert env d = Returns None ->
    fetch_run env b w
      (Returns (json 200 (Articles
                            (todayArticles env (JS.setHours0 (LocalTZA env) (clock w)) fs)
                            (JS.trim t))),
       logged d (ticks env (parse_calls fs ++ [CompletionPost p; ScanLogsInsert d]) w)).

(** A request is rejected before any call: the answer is a client error and
    no call was recorded. *)
Definition rejected_before_any_call (w : World) (r : outcome Response * World) : Prop :=
  (exists resp, fst r = Returns resp /\ 400 <= status resp < 500)
  /\ trace (snd r) = trace w.


(** The string starts, or ends, with a code point that [trim] removes. *)
Definition starts_with_white_space (s : string) : bool :=
  match JS.strip_any JS.white_space (list_ascii_of_string s) with
  | Some _ => true
  | None => false
  end.

Definition ends_with_white_space (s : string) : bool :=
  match JS.strip_any (map (@rev ascii) JS.white_space) (rev (list_ascii_of_string s)) with
  | Some _ => true
  | None => false
  end.

(** The calls a run of POST /fetch-articles may end with, after the parser
    calls: none, the completion call, or the completion call and the
    insert. *)
Inductive closing_calls : list event -> Prop :=
| closing_none : closing_calls []
| closing_completion (p : string) : closing_calls [CompletionPost p]
| closing_insert (p : string) (d : Z) : closing_calls [CompletionPost p; ScanLogsInsert d].

(** The answer carries one of the given status codes, and a message unless
    the status is 200. *)
Definition answers (codes : list Z) (r : outcome Response * World) : Prop :=
  exists resp,
    fst r = Returns resp
    /\ In (status resp) codes
    /\ (status resp <> 200 -> exists m, body resp = Message m).

(** The world after the store has removed the rows of a user. *)
Definition without_user (userId : string) (w : World) : World :=
  {| users := filter (fun u => negb (String.eqb (User.id u) userId)) (users w);
     scan_logs := scan_logs w;
     clock := clock w;
     trace := trace w |}.

(** Every run of DELETE /delete-user is one of six: the auth call throws;
    it reports an error other than 'User not found'; the deletion throws;
    the store reports an error; no row was deleted; some row was. *)
Inductive delete_run (env : Env) (userId : string) (w : World)
  : outcome Response * World -> Prop :=
| del_auth_throws (e : Error) :
    auth_deleteUser env userId = Throws e ->
    delete_run env userId w
      (Returns (json 500 (Message "Unexpected error occurred while deleting user.")),
       ticks env [AuthDeleteUser userId] w)
| del_auth_error (e : Error) :
    auth_deleteUser env userId = Returns (Some e) ->
    message e <> "User not found" ->
    delete_run env userId w
      (Returns (json 500 (Message ("Failed to delete user from authentication: " ++ message e))),
       ticks env [AuthDeleteUser userId] w)
| del_store_throws (e : Error) :
    auth_step_continues env userId = true ->
    users_delete env userId = Throws e ->
    delete_run env userId w
      (Returns (json 500 (Message "Unexpected error occurred while deleting user.")),
       ticks env [AuthDeleteUser userId; UsersDelete userId] w)
| del_store_error (e : Error) :
    auth_step_continues env userId = true ->
    users_delete env userId = Returns (Some e) ->
    delete_run env userId w
      (Returns (json 500 (Message ("Failed to delete user from users table: " ++ message e))),
       ticks env [AuthDeleteUser userId; UsersDelete userId] w)
| del_no_row :
    auth_step_continues env userId = true ->
    users_delete env userId = Returns None ->
    filter (fun u => String.eqb (User.id u) userId) (users w) = [] ->
    delete_run env userId w
      (Returns (json 404 (Message "No user was deleted from users table. Please ensure the user exists and you have the right permissions.")),
       without_user userId (ticks env [AuthDeleteUser userId; UsersDelete userId] w))
| del_rows :
    auth_step_continues env userId = true ->
    users_delete env userId = Returns None ->
    filter (fun u => String.eqb (User.id u) userId) (users w) <> [] ->
    delete_run env userId w
      (Returns (json 200 (Message "User deleted successfully from both authentication and users table.")),
       without_user userId (ticks env [AuthDeleteUser userId; UsersDelete userId] w)).

(** ** Facts about the monad and the recorded calls *)

Section Facts.

Variable env : Env.

Lemma ticks_app (evs1 evs2 : list event) (w : World) :
  ticks env (evs1 ++ evs2) w = ticks env evs2 (ticks env evs1 w).
Proof. unfold ticks. apply fold_left_app. Qed.

Lemma ticks_users (evs : list event) (w : World) :
  users (ticks env evs w) = users w.
Proof.
  revert w. induction evs as [|ev evs IH]; intro w; [reflexivity|].
  change (ticks env (ev :: evs) w) with (ticks env evs (tick env ev w)).
  rewrite IH. reflexivity.
Qed.

Lemma ticks_scan_logs (evs : list event) (w : World) :
  scan_logs (ticks env evs w) = scan_logs w.
Proof.
  revert w. induction evs as [|ev evs IH]; intro w; [reflexivity|].
  change (ticks env (ev :: evs) w) with (ticks env evs (tick env ev w)).
  rewrite IH. reflexivity.
Qed.

Lemma ticks_trace (evs : list event) (w : World) :
  trace (ticks env evs w) = (trace w ++ evs)%list.
Proof.
  revert w. induction evs as [|ev evs IH]; intro w.
  - cbn. now rewrite app_nil_r.
  - change (ticks env (ev :: evs) w) with (ticks env evs (tick env ev w)).
    rewrite IH. cbn. now rewrite <- app_assoc.
Qed.


Lemma filter_nil_iff {A : Type} (f : A -> bool) (l : list A) :
  filter f l = [] <-> forall x, In x l -> f x = false.
Proof.
  induction l as [|a l IH]; cbn.
  - split; [intros _ x []|reflexivity].
  - destruct (f a) eqn:Ha.
    + split; [discriminate|]. intro H. rewrite (H a) in Ha by now left. discriminate.
    + rewrite IH. split.
      * intros H x [<-|Hx]; auto.
      * intros H x Hx. apply H. now right.
Qed.

End Facts.

(** ** DELETE /delete-user/:userId *)

(** C5.  When the auth subsystem reports the error 'User not found', the
    handler goes on to the row deletion: the deletion from [users] is the
    next call made, and the answer is the one of lines 39-56.  When it
    reports any other error, the answer is 500 with the auth error's
    message, no deletion from [users] is attempted and the table is as
    before. *)
Theorem delete_user_auth_error (env : Env) (userId : string) (w : World) (e : Error) :
  auth_deleteUser env userId = Returns (Some e) ->
  (message e = "User not found" ->
     trace (snd (delete_user env userId w))
       = (trace w ++ [AuthDeleteUser userId; UsersDelete userId])%list
     /\ delete_user env userId w
        = try_catch (delete_user_row env userId)
            (fun _ => ret (json 500 (Message "Unexpected error occurred while deleting user.")))
            (tick env (AuthDeleteUser userId) w))
  /\ (message e <> "User not found" ->
        fst (delete_user env userId w)
          = Returns (json 500 (Message ("Failed to delete user from authentication: " ++ message e)))
        /\ trace (snd (delete_user env userId w)) = (trace w ++ [AuthDeleteUser userId])%list
        /\ users (snd (delete_user env userId w)) = users w).
Proof.
  intro Hauth. split; intro Hmsg.
  - assert (Hrun : delete_user env userId w
                   = try_catch (delete_user_row env userId)
                       (fun _ => ret (json 500 (Message "Unexpected error occurred while deleting user.")))
                       (tick env (AuthDeleteUser userId) w)).
    { unfold delete_user, try_catch, bind, auth_admin_deleteUser.
      rewrite Hauth, Hmsg. reflexivity. }
    split; [|exact Hrun].
    rewrite Hrun.
    unfold try_catch, delete_user_row, bind, from_users_delete_eq_id, ret.
    destruct (users_delete env userId) as [[err|]|err]; cbn.
    + now rewrite <- app_assoc.
    + destruct (filter _ (users w)); cbn; now rewrite <- app_assoc.
    + now rewrite <- app_assoc.
  - unfold delete_user, try_catch, bind, auth_admin_deleteUser.
    rewrite Hauth.
    apply String.eqb_neq in Hmsg. rewrite Hmsg. cbn. auto.
Qed.

Lemma delete_user_auth_error_witness :
  trace (snd (delete_user
                (Fixture.with_auth (Returns (Some {| message := "User not found" |})) Fixture.env_ok)
                "u1" Fixture.world))
    = [AuthDeleteUser "u1"; UsersDelete "u1"]
  /\ fst (delete_user
            (Fixture.with_auth (Returns (Some {| message := "Database error" |})) Fixture.env_ok)
            "u1" Fixture.world)
     = Returns (json 500 (Message "Failed to delete user from authentication: Database error")).
Proof.
  split.
  - apply (delete_user_auth_error
             (Fixture.with_auth (Returns (Some {| message := "User not found" |})) Fixture.env_ok)
             "u1" Fixture.world {| message := "User not found" |} eq_refl).
    reflexivity.
  - apply (delete_user_auth_error
             (Fixture.with_auth (Returns (Some {| message := "Database error" |})) Fixture.env_ok)
             "u1" Fixture.world {| message := "Database error" |} eq_refl).
    cbn. discriminate.
Defined.

(** C6.  Once the auth step has let the handler go on: an error reported by
    the store for the deletion gives 500 with the store's message; when the
    store performs the deletion, a [userId] that no row of [users] has gives
    404 (whatever the auth step answered), and a [userId] that some row has
    gives 200, after which no row has it. *)
Theorem delete_user_row_step (env : Env) (userId : string) (w : World) :
  auth_step_continues env userId = true ->
  (forall e, users_delete env userId = Returns (Some e) ->
     fst (delete_user env userId w)
       = Returns (json 500 (Message ("Failed to delete user from users table: " ++ message e)))
     /\ users (snd (delete_user env userId w)) = users w)
  /\ (users_delete env userId = Returns None ->
      (forall u, In u (users w) -> User.id u <> userId) ->
      fst (delete_user env userId w)
        = Returns (json 404 (Message "No user was deleted from users table. Please ensure the user exists and you have the right permissions."))
      /\ users (snd (delete_user env userId w)) = users w)
  /\ (users_delete env userId = Returns None ->
      (exists u, In u (users w) /\ User.id u = userId) ->
      fst (delete_user env userId w)
        = Returns (json 200 (Message "User deleted successfully from both authentication and users table."))
      /\ forall u, In u (users (snd (delete_user env userId w)))
                   <-> In u (users w) /\ User.id u <> userId).
Proof.
  intro Hauth.
  assert (Hrun : delete_user env userId w
                 = try_catch (delete_user_row env userId)
                     (fun _ => ret (json 500 (Message "Unexpected error occurred while deleting user.")))
                     (tick env (AuthDeleteUser userId) w)).
  { unfold auth_step_continues in Hauth.
    unfold delete_user, try_catch, bind, auth_admin_deleteUser.
    destruct (auth_deleteUser env userId) as [[e|]|e]; try discriminate.
    - rewrite Hauth. reflexivity.
    - reflexivity. }
  rewrite Hrun.
  unfold try_catch, delete_user_row, bind, from_users_delete_eq_id, ret.
  split; [|split].
  - intros e He. rewrite He. cbn. auto.
  - intros Hok Hnone. rewrite Hok.
    assert (Hnil : filter (fun u => String.eqb (User.id u) userId) (users w) = []).
    { apply filter_nil_iff. intros u Hu. apply String.eqb_neq. now apply Hnone. }
    cbn. rewrite Hnil. cbn. split; [reflexivity|].
    clear Hnil. induction (users w) as [|u l IH]; [reflexivity|].
    cbn. assert (Hu : String.eqb (User.id u) userId = false).
    { apply String.eqb_neq. apply Hnone. now left. }
    rewrite Hu. cbn. f_equal. apply IH.
    + intros v Hv. apply Hnone. now right.
  - intros Hok [u [Hin Hid]]. rewrite Hok. cbn.
    destruct (filter (fun u => String.eqb (User.id u) userId) (users w)) as [|v l] eqn:Hf.
    + exfalso. rewrite filter_nil_iff in Hf. specialize (Hf u Hin).
      apply String.eqb_neq in Hf. contradiction.
    + cbn. split; [reflexivity|].
      intro x. rewrite filter_In. rewrite negb_true_iff.
      split; intros [H1 H2]; split; auto; now apply String.eqb_neq.
Qed.

Lemma delete_user_row_step_witness :
  fst (delete_user Fixture.env_ok "u9" Fixture.world)
    = Returns (json 404 (Message "No user was deleted from users table. Please ensure the user exists and you have the right permissions."))
  /\ fst (delete_user Fixture.env_ok "u1" Fixture.world)
     = Returns (json 200 (Message "User deleted successfully from both authentication and users table."))
  /\ fst (delete_user
            (Fixture.with_users_delete (Returns (Some {| message := "permission denied" |})) Fixture.env_ok)
            "u1" Fixture.world)
     = Returns (json 500 (Message "Failed to delete user from users table: permission denied")).
Proof.
  split; [|split].
  - apply (delete_user_row_step Fixture.env_ok "u9" Fixture.world eq_refl);
      [reflexivity|].
    intros u [<-|[<-|[]]]; cbn; discriminate.
  - apply (delete_user_row_step Fixture.env_ok "u1" Fixture.world eq_refl);
      [reflexivity|].
    exists Fixture.alice. split; [now left|reflexivity].
  - apply (proj1 (delete_user_row_step
             (Fixture.with_users_delete (Returns (Some {| message := "permission denied" |})) Fixture.env_ok)
             "u1" Fixture.world eq_refl) {| message := "permission denied" |}).
    reflexivity.
Defined.

(** ** GET /check-scan *)

(** C7.  With [start] the instant the runtime gives for local midnight of
    the current day ([setHours(0, 0, 0, 0)] on the clock of the request, under
    the rules of the server's zone): when the store answers the query without
    an error, the response is 200 and [scanDone] is [true] exactly when
    some row of [scan_logs] has [start <= scan_date] (so a row at [start]
    itself counts and a row one millisecond earlier does not); when the
    store reports an error or the query throws, the response is 500. *)
Theorem check_scan_spec (env : Env) (w : World) :
  let start := JS.setHours0 (LocalTZA env) (clock w) in
  (scan_logs_select env start = Returns None ->
     exists b,
       fst (check_scan env w) = Returns (json 200 (ScanDone b))
       /\ (b = true <-> exists r, In r (scan_logs w) /\ start <= scan_date r))
  /\ (forall e, scan_logs_select env start = Returns (Some e) ->
        fst (check_scan env w) = Returns (json 500 (Message "Error checking scan logs.")))
  /\ (forall e, scan_logs_select env start = Throws e ->
        fst (check_scan env w)
          = Returns (json 500 (Message "Unexpected error occurred while checking scan logs."))).
Proof.
  intro start.
  unfold check_scan, try_catch, bind, startOfToday, bind, new_Date, ret,
    from_scan_logs_select_gte.
  fold start.
  split; [|split].
  - intro Hok. rewrite Hok.
    destruct (filter (fun r => start <=? scan_date r) (scan_logs w)) as [|r l] eqn:Hf.
    + exists false. split; [reflexivity|].
      split; [discriminate|]. intros [r [Hin Hr]]. exfalso.
      rewrite filter_nil_iff in Hf. specialize (Hf r Hin). cbn in Hf. lia.
    + exists true. split; [reflexivity|].
      split; [|reflexivity]. intros _. exists r.
      assert (Hin : In r (filter (fun r => start <=? scan_date r) (scan_logs w)))
        by (rewrite Hf; now left).
      apply filter_In in Hin. destruct Hin as [Hin Hr]. split; [exact Hin|lia].
  - intros e He. rewrite He. reflexivity.
  - intros e He. rewrite He. reflexivity.
Qed.

Lemma check_scan_spec_witness :
  fst (check_scan Fixture.env_ok
         (Fixture.with_scan_logs [ {| scan_date := Fixture.midnight - 1 |} ] Fixture.world))
    = Returns (json 200 (ScanDone false))
  /\ fst (check_scan Fixture.env_ok
            (Fixture.with_scan_logs
               [ {| scan_date := Fixture.midnight - 1 |}; {| scan_date := Fixture.midnight |} ]
               Fixture.world))
     = Returns (json 200 (ScanDone true))
  /\ fst (check_scan
            (Fixture.with_select (Returns (Some {| message := "timeout" |})) Fixture.env_ok)
            Fixture.world)
     = Returns (json 500 (Message "Error checking scan logs.")).
Proof.
  split; [|split].
  - destruct (proj1 (check_scan_spec Fixture.env_ok
               (Fixture.with_scan_logs [ {| scan_date := Fixture.midnight - 1 |} ] Fixture.world))
               eq_refl) as [b [Hresp Hb]].
    rewrite Hresp. destruct b; [|reflexivity].
    destruct (proj1 Hb eq_refl) as [r [[<-|[]] Hr]].
    vm_compute in Hr. exfalso. apply Hr. reflexivity.
  - destruct (proj1 (check_scan_spec Fixture.env_ok
               (Fixture.with_scan_logs
                  [ {| scan_date := Fixture.midnight - 1 |}; {| scan_date := Fixture.midnight |} ]
                  Fixture.world))
               eq_refl) as [b [Hresp Hb]].
    rewrite Hresp. destruct b; [reflexivity|].
    assert (Hex : false = true); [|discriminate Hex].
    apply Hb. exists {| scan_date := Fixture.midnight |}.
    split; [right; now left|]. vm_compute. discriminate.
  - apply (proj1 (proj2 (check_scan_spec
             (Fixture.with_select (Returns (Some {| message := "timeout" |})) Fixture.env_ok)
             Fixture.world)) {| message := "timeout" |}).
    reflexivity.
Defined.

(** Where the zone changes its offset the bound follows the zone.  In New
    York, 2024-11-03 has twenty-five hours: half an hour before its end
    (2024-11-04T04:30Z) local midnight is still 2024-11-03T04:00Z.  On
    2024-03-10, which has twenty-three, local midnight is 05:00Z although
    the offset at noon is four hours. *)
Example setHours0_long_day :
  JS.setHours0 Fixture.new_york_2024 1730694600000 = 1730606400000.
Proof. reflexivity. Qed.

Example setHours0_short_day :
  JS.setHours0 Fixture.new_york_2024 1710086400000 = 1710046800000.
Proof. reflexivity. Qed.

Example check_scan_long_day :
  fst (check_scan (Fixture.with_zone Fixture.new_york_2024 Fixture.env_ok)
         (Fixture.at_time 1730694600000
            (Fixture.with_scan_logs [ {| scan_date := 1730606400000 |} ] Fixture.world)))
    = Returns (json 200 (ScanDone true))
  /\ fst (check_scan (Fixture.with_zone Fixture.new_york_2024 Fixture.env_ok)
            (Fixture.at_time 1730694600000
               (Fixture.with_scan_logs [ {| scan_date := 1730606399999 |} ] Fixture.world)))
     = Returns (json 200 (ScanDone false)).
Proof. split; reflexivity. Qed.

(** ** POST /validate-feed *)

(** C8.  A parse that gives a feed object is answered 200; a parse that
    gives nothing ([null] or [undefined]) is answered 400; a parse that
    throws is answered 500 with one fixed message, whatever the exception
    said. *)
Theorem validate_feed_spec (env : Env) (b : ValidateBody) (w : World) :
  (forall f, parseURL env (url b) = Returns (Some f) ->
     fst (validate_feed env b w) = Returns (json 200 (Message "RSS feed is valid")))
  /\ (parseURL env (url b) = Returns None ->
      fst (validate_feed env b w) = Returns (json 400 (Message "Invalid RSS feed format")))
  /\ (forall e, parseURL env (url b) = Throws e ->
        fst (validate_feed env b w) = Returns (json 500 (Message "Error parsing RSS feed"))).
Proof.
  unfold validate_feed, try_catch, bind, parser_parseURL, ret.
  split; [|split]; intros; rewrite H; reflexivity.
Qed.

Lemma validate_feed_spec_witness :
  fst (validate_feed Fixture.env_ok {| url := Some Fixture.feedA |} Fixture.world)
    = Returns (json 200 (Message "RSS feed is valid"))
  /\ fst (validate_feed Fixture.env_ok {| url := Some "https://nowhere.example" |} Fixture.world)
     = Returns (json 500 (Message "Error parsing RSS feed")).
Proof.
  split.
  - eapply (proj1 (validate_feed_spec Fixture.env_ok {| url := Some Fixture.feedA |} Fixture.world)).
    reflexivity.
  - eapply (proj2 (proj2 (validate_feed_spec Fixture.env_ok
              {| url := Some "https://nowhere.example" |} Fixture.world))).
    reflexivity.
Defined.

(** ** POST /fetch-articles: the feed loop *)

Section FetchArticles.

Variable env : Env.


Lemma isToday_iff (start : Z) (it : Item.t) :
  isToday env start it = true
  <-> exists t, Date_of env (Item.pubDate it) = Some t /\ start <= t.
Proof.
  unfold isToday, JS.Date_ge.
  destruct (Date_of env (Item.pubDate it)) as [t|].
  - rewrite Z.leb_le. split.
    + intro H. exists t. auto.
    + intros [t' [Ht' H]]. injection Ht' as ->. exact H.
  - split; [discriminate|]. intros [t [Ht _]]. discriminate.
Qed.

(** The loop over feeds that all parse: every feed is fetched, in order,
    and [articles] grows by the articles of today's items of each. *)
Lemma feed_loop_parses (start : Z) (fs : list string) :
  forallb (feed_parses env) fs = true ->
  forall (acc : list Article.t) (w : World),
    feed_loop env start fs acc w
    = (Returns (inr (acc ++ flat_map
                       (fun u => map (mkArticle u) (filter (isToday env start) (items_of env u)))
                       fs)%list),
       ticks env (parse_calls fs) w).
Proof.
  induction fs as [|u rest IH]; intros Hall acc w.
  - cbn. now rewrite app_nil_r.
  - cbn in Hall. apply andb_true_iff in Hall. destruct Hall as [Hu Hrest].
    cbn [feed_loop flat_map parse_calls map].
    change (ticks env (ParseURL (Some u) :: map (fun u0 => ParseURL (Some u0)) rest) w)
      with (ticks env (parse_calls rest) (tick env (ParseURL (Some u)) w)).
    unfold bind at 1. unfold try_catch, bind, parser_parseURL.
    unfold feed_parses in Hu. unfold items_of at 1.
    destruct (parseURL env (Some u)) as [[f|]|e]; try discriminate.
    cbn [feed_items ret].
    rewrite (IH Hrest). now rewrite <- app_assoc.
Qed.

(** The loop stops at the first feed that does not parse. *)
Lemma feed_loop_fails (start : Z) (pre : list string) (u : string) (post : list string) :
  forallb (feed_parses env) pre = true ->
  feed_parses env u = false ->
  forall (acc : list Article.t) (w : World),
    feed_loop env start (pre ++ u :: post) acc w
    = (Returns (inl (json 500 (Message ("Error fetching articles from " ++ u)))),
       ticks env (parse_calls (pre ++ [u])) w).
Proof.
  induction pre as [|v pre IH]; intros Hall Hu acc w.
  - cbn [app feed_loop parse_calls map].
    unfold bind at 1. unfold try_catch, bind, parser_parseURL.
    unfold feed_parses in Hu.
    destruct (parseURL env (Some u)) as [[f|]|e]; try discriminate; reflexivity.
  - cbn in Hall. apply andb_true_iff in Hall. destruct Hall as [Hv Hpre].
    cbn [app feed_loop parse_calls map].
    change (ticks env (ParseURL (Some v) :: map (fun u0 => ParseURL (Some u0)) (pre ++ [u])) w)
      with (ticks env (parse_calls (pre ++ [u])) (tick env (ParseURL (Some v)) w)).
    unfold bind at 1. unfold try_catch, bind, parser_parseURL.
    unfold feed_parses in Hv.
    destruct (parseURL env (Some v)) as [[f|]|e]; try discriminate.
    cbn [feed_items ret].
    now rewrite (IH Hpre Hu).
Qed.

(** A list with an element that fails a test splits at the first one. *)
Lemma first_failure {A : Type} (p : A -> bool) (l : list A) :
  (exists x, In x l /\ p x = false) ->
  exists pre x post, l = (pre ++ x :: post)%list /\ forallb p pre = true /\ p x = false.
Proof.
  induction l as [|a l IH]; intros [x [Hin Hx]]; [destruct Hin|].
  destruct (p a) eqn:Ha.
  - destruct Hin as [->|Hin]; [congruence|].
    destruct (IH (ex_intro _ x (conj Hin Hx))) as [pre [y [post [-> [Hpre Hy]]]]].
    exists (a :: pre), y, post. cbn. rewrite Ha. auto.
  - exists [], a, l. auto.
Qed.

(** Lines 139-179 always answer; what they answer and what they leave
    behind is decided by the credential, the completion call and the
    insert. *)
Lemma rank_and_log_no_key (ctx : JS.value) (arts : list Article.t) (w : World) :
  JS.truthy (OPENAI_API_KEY env) = false ->
  rank_and_log env ctx arts w
  = (Returns (json 500 (Message "OpenAI API key is not set.")), w).
Proof. intro Hk. unfold rank_and_log. rewrite Hk. reflexivity. Qed.

Lemma rank_and_log_no_text (ctx : JS.value) (arts : list Article.t) (w : World) :
  JS.truthy (OPENAI_API_KEY env) = true ->
  completion_text (axios_post env (prompt ctx ++ promptText arts)) = None ->
  rank_and_log env ctx arts w
  = (Returns (json 500 (Message "Error during OpenAI request")),
     tick env (CompletionPost (prompt ctx ++ promptText arts)) w).
Proof.
  intros Hk Ht. unfold rank_and_log. rewrite Hk. cbn [negb].
  unfold try_catch, bind, axios_post_completions. unfold completion_text in Ht.
  destruct (axios_post env (prompt ctx ++ promptText arts)) as [d|e]; [|reflexivity].
  unfold firstChoiceText.
  destruct (choices d) as [[|c cs]|]; try reflexivity.
  cbn [nth_error]. rewrite Ht. reflexivity.
Qed.

Lemma rank_and_log_text (ctx : JS.value) (arts : list Article.t) (w : World) (t : string) :
  JS.truthy (OPENAI_API_KEY env) = true ->
  completion_text (axios_post env (prompt ctx ++ promptText arts)) = Some t ->
  let w1 := tick env (CompletionPost (prompt ctx ++ promptText arts)) w in
  let w2 := tick env (ScanLogsInsert (clock w1)) w1 in
  rank_and_log env ctx arts w
  = match scan_logs_insert env (clock w1) with
    | Throws _ => (Returns (json 500 (Message "Error during OpenAI request")), w2)
    | Returns (Some _) => (Returns (json 200 (Articles arts (JS.trim t))), w2)
    | Returns None => (Returns (json 200 (Articles arts (JS.trim t))), logged (clock w1) w2)
    end.
Proof.
  intros Hk Ht w1 w2. unfold rank_and_log. rewrite Hk. cbn [negb].
  unfold try_catch, bind, axios_post_completions. unfold completion_text in Ht.
  destruct (axios_post env (prompt ctx ++ promptText arts)) as [d|e]; [|discriminate].
  unfold firstChoiceText.
  destruct (choices d) as [[|c cs]|]; try discriminate.
  cbn [nth_error]. rewrite Ht.
  unfold ret, new_Date, from_scan_logs_insert. fold w1. fold w2.
  destruct (scan_logs_insert env (clock w1)) as [[e|]|e]; reflexivity.
Qed.

Lemma rank_and_log_returns (ctx : JS.value) (arts : list Article.t) (w : World) :
  exists r, fst (rank_and_log env ctx arts w) = Returns r.
Proof.
  destruct (JS.truthy (OPENAI_API_KEY env)) eqn:Hk.
  - destruct (completion_text (axios_post env (prompt ctx ++ promptText arts))) as [t|] eqn:Ht.
    + rewrite (rank_and_log_text ctx arts w t Hk Ht).
      destruct (scan_logs_insert env _) as [[e|]|e]; eexists; reflexivity.
    + rewrite (rank_and_log_no_text ctx arts w Hk Ht). eexists; reflexivity.
  - rewrite (rank_and_log_no_key ctx arts w Hk). eexists; reflexivity.
Qed.

(** The handler on a body without [feeds]. *)
Lemma fetch_articles_no_feeds (b : FetchBody) (w : World) :
  feeds b = None ->
  fetch_articles env b w = (Returns (json 500 (Message "Error fetching articles")), w).
Proof.
  intro Hf. unfold fetch_articles, try_catch, bind, startOfToday, bind, new_Date, ret.
  rewrite Hf. reflexivity.
Qed.

(** The handler when all feeds parse: the loop, then lines 139-179. *)
Lemma fetch_articles_parses (b : FetchBody) (fs : list string) (w : World) :
  feeds b = Some fs ->
  forallb (feed_parses env) fs = true ->
  fetch_articles env b w
  = rank_and_log env (openAiContext b)
      (flat_map (fun u => map (mkArticle u)
                            (filter (isToday env (JS.setHours0 (LocalTZA env) (clock w)))
                                    (items_of env u))) fs)
      (ticks env (parse_calls fs) w).
Proof.
  intros Hf Hall.
  unfold fetch_articles, try_catch, bind, startOfToday, bind, new_Date, ret.
  rewrite Hf. cbn [iterable ret].
  unfold ret. rewrite (feed_loop_parses _ fs Hall). cbn [app].
  destruct (rank_and_log_returns (openAiContext b)
              (flat_map (fun u => map (mkArticle u)
                            (filter (isToday env (JS.setHours0 (LocalTZA env) (clock w)))
                                    (items_of env u))) fs)
              (ticks env (parse_calls fs) w)) as [r Hr].
  destruct (rank_and_log env _ _ _) as [o w']. cbn in Hr. rewrite Hr. reflexivity.
Qed.

(** The handler when some feed does not parse. *)
Lemma fetch_articles_fails (b : FetchBody) (pre : list string) (u : string)
  (post : list string) (w : World) :
  feeds b = Some (pre ++ u :: post)%list ->
  forallb (feed_parses env) pre = true ->
  feed_parses env u = false ->
  fetch_articles env b w
  = (Returns (json 500 (Message ("Error fetching articles from " ++ u))),
     ticks env (parse_calls (pre ++ [u])) w).
Proof.
  intros Hf Hpre Hu.
  unfold fetch_articles, try_catch, bind, startOfToday, bind, new_Date, ret.
  rewrite Hf. cbn [iterable ret].
  unfold ret. rewrite (feed_loop_fails _ pre u post Hpre Hu). reflexivity.
Qed.

End FetchArticles.

Section FetchRuns.

Variable env : Env.

Lemma forallb_false_first {A : Type} (p : A -> bool) (l : list A) :
  forallb p l = false ->
  exists pre x post, l = (pre ++ x :: post)%list /\ forallb p pre = true /\ p x = false.
Proof.
  intro H. apply first_failure.
  induction l as [|a l IH]; [discriminate|].
  cbn in H. destruct (p a) eqn:Ha.
  - destruct (IH H) as [x [Hin Hx]]. exists x. split; [now right|exact Hx].
  - exists a. split; [now left|exact Ha].
Qed.

Lemma fetch_articles_run (b : FetchBody) (w : World) :
  fetch_run env b w (fetch_articles env b w).
Proof.
  destruct (feeds b) as [fs|] eqn:Hf.
  2:{ rewrite (fetch_articles_no_feeds env b w Hf). now constructor. }
  destruct (forallb (feed_parses env) fs) eqn:Hall.
  2:{ destruct (forallb_false_first _ _ Hall) as [pre [u [post [-> [Hpre Hu]]]]].
      rewrite (fetch_articles_fails env b pre u post w Hf Hpre Hu).
      now apply run_feed_fails with (post := post). }
  rewrite (fetch_articles_parses env b fs w Hf Hall).
  fold (todayArticles env (JS.setHours0 (LocalTZA env) (clock w)) fs).
  set (arts := todayArticles env (JS.setHours0 (LocalTZA env) (clock w)) fs).
  destruct (JS.truthy (OPENAI_API_KEY env)) eqn:Hk.
  2:{ rewrite (rank_and_log_no_key env _ arts _ Hk). now apply run_no_key. }
  set (p := (prompt (openAiContext b) ++ promptText arts)%string).
  destruct (completion_text (axios_post env p)) as [t|] eqn:Ht.
  2:{ rewrite (rank_and_log_no_text env _ arts _ Hk Ht).
      fold p. change (tick env (CompletionPost p) (ticks env (parse_calls fs) w))
        with (ticks env [CompletionPost p] (ticks env (parse_calls fs) w)).
      rewrite <- ticks_app. now apply run_no_text. }
  rewrite (rank_and_log_text env _ arts _ t Hk Ht). fold p.
  change (tick env (CompletionPost p) (ticks env (parse_calls fs) w))
    with (ticks env [CompletionPost p] (ticks env (parse_calls fs) w)).
  rewrite <- ticks_app.
  set (d := clock (ticks env (parse_calls fs ++ [CompletionPost p]) w)).
  assert (Hw2 : tick env (ScanLogsInsert d) (ticks env (parse_calls fs ++ [CompletionPost p]) w)
                = ticks env (parse_calls fs ++ [CompletionPost p; ScanLogsInsert d]) w).
  { change (tick env (ScanLogsInsert d) (ticks env (parse_calls fs ++ [CompletionPost p]) w))
      with (ticks env [ScanLogsInsert d] (ticks env (parse_calls fs ++ [CompletionPost p]) w)).
    rewrite <- ticks_app, <- app_assoc. reflexivity. }
  rewrite Hw2.
  destruct (scan_logs_insert env d) as [[e|]|e] eqn:Hi.
  - now apply run_insert_error with (p := p) (e := e).
  - now apply run_logged with (p := p).
  - now apply run_insert_throws with (p := p) (t := t) (e := e).
Qed.

End FetchRuns.

(** ** POST /fetch-articles: the handler *)

(** C1.  When every feed of the request parses, an articles list that is
    returned is the list of the articles of exactly the items whose
    publication date is on or after the start of today, feed after feed in
    the order of [feeds] and item after item in the order of the feed; it is
    returned as soon as the credential is set, the completion call gives a
    text and the insert does not throw.  The [id] of an article is
    [feedUrl_guid]; its [content] is the item's content, else its snippet,
    else the empty string. *)
Theorem fetch_articles_today (env : Env) (b : FetchBody) (fs : list string) (w : World) :
  feeds b = Some fs ->
  (forall u, In u fs -> exists f, parseURL env (Some u) = Returns (Some f)) ->
  let start := JS.setHours0 (LocalTZA env) (clock w) in
  let expected :=
    flat_map (fun u => map (mkArticle u) (filter (isToday env start) (items_of env u))) fs in
  (forall arts top,
     fst (fetch_articles env b w) = Returns (json 200 (Articles arts top)) ->
     arts = expected)
  /\ (JS.truthy (OPENAI_API_KEY env) = true ->
      forall t,
        completion_text (axios_post env (prompt (openAiContext b) ++ promptText expected))
          = Some t ->
        (forall d e, scan_logs_insert env d <> Throws e) ->
        fst (fetch_articles env b w) = Returns (json 200 (Articles expected (JS.trim t))))
  /\ (forall u f, parseURL env (Some u) = Returns (Some f) -> items_of env u = items f)
  /\ (forall it, isToday env start it = true
                 <-> exists t, Date_of env (Item.pubDate it) = Some t /\ start <= t)
  /\ (forall u it, Article.id (mkArticle u it) = u ++ "_" ++ JS.ToString (Item.guid it))
  /\ (forall u it c,
        Item.content it = Some c -> c <> EmptyString ->
        Article.content (mkArticle u it) = c)
  /\ (forall u it s,
        Item.content it = None \/ Item.content it = Some EmptyString ->
        Item.contentSnippet it = Some s -> s <> EmptyString ->
        Article.content (mkArticle u it) = s)
  /\ (forall u it,
        Item.content it = None \/ Item.content it = Some EmptyString ->
        Item.contentSnippet it = None \/ Item.contentSnippet it = Some EmptyString ->
        Article.content (mkArticle u it) = EmptyString).
Proof.
  intros Hf Hparse start expected.
  assert (Hall : forallb (feed_parses env) fs = true).
  { apply forallb_forall. intros u Hu. unfold feed_parses.
    destruct (Hparse u Hu) as [f ->]. reflexivity. }
  fold (todayArticles env start fs) in expected.
  split; [|split; [|split; [|split; [|split; [|split; [|split]]]]]].
  - intros arts top Hresp.
    destruct (fetch_articles_run env b w); cbn in Hresp; try discriminate;
      injection Hresp as <- _;
      match goal with H : feeds b = Some _ |- _ => rewrite Hf in H; injection H as <- end;
      reflexivity.
  - intros Hk t Ht Hins.
    rewrite (fetch_articles_parses env b fs w Hf Hall).
    fold start. fold (todayArticles env start fs). fold expected.
    rewrite (rank_and_log_text env _ expected _ t Hk Ht).
    destruct (scan_logs_insert env _) as [[e|]|e] eqn:Hi; try reflexivity.
    exfalso. exact (Hins _ _ Hi).
  - intros u f Hu. unfold items_of. now rewrite Hu.
  - intro it. apply isToday_iff.
  - reflexivity.
  - intros u it c Hc Hne. cbn. rewrite Hc.
    destruct c as [|a c]; [contradiction|reflexivity].
  - intros u it s Hc Hs Hne. cbn. rewrite Hs.
    destruct s as [|a s]; [contradiction|].
    destruct Hc as [-> | ->]; reflexivity.
  - intros u it Hc Hs. cbn.
    destruct Hc as [-> | ->], Hs as [-> | ->]; reflexivity.
Qed.

Lemma fetch_articles_today_witness :
  fst (fetch_articles Fixture.env_ok
         {| feeds := Some [Fixture.feedA; Fixture.feedB]; openAiContext := Some "AI news" |}
         Fixture.world)
  = Returns (json 200 (Articles
      [ {| Article.id := "https://a.example/rss_a1";
           Article.title := Some "title a1";
           Article.link := Some "https://example/a1";
           Article.pubDate := Some "today 09:00";
           Article.content := "full text a1" |};
        {| Article.id := "https://b.example/rss_b1";
           Article.title := Some "title b1";
           Article.link := Some "https://example/b1";
           Article.pubDate := Some "today 00:00";
           Article.content := "snip b1" |} ]
      "a1, b1")).
Proof.
  assert (Hparse : forall u, In u [Fixture.feedA; Fixture.feedB] ->
                     exists f, parseURL Fixture.env_ok (Some u) = Returns (Some f)).
  { intros u [<-|[<-|[]]]; eexists; reflexivity. }
  apply (proj1 (proj2 (fetch_articles_today Fixture.env_ok
           {| feeds := Some [Fixture.feedA; Fixture.feedB]; openAiContext := Some "AI news" |}
           [Fixture.feedA; Fixture.feedB] Fixture.world eq_refl Hparse))
           eq_refl " a1, b1 " eq_refl).
  intros d e. vm_compute. discriminate.
Defined.

(** C2.  When some feed of the request does not parse (the parser throws or
    gives nothing), the handler answers 500 with the message naming the
    first such feed URL; the feeds before it were fetched, it was fetched,
    and nothing else was called: no feed after it, no completion call, no
    insert.  The body carries no article and [scan_logs] is as before. *)
Theorem fetch_articles_feed_error (env : Env) (b : FetchBody) (fs : list string) (w : World) :
  feeds b = Some fs ->
  (exists u, In u fs /\ feed_parses env u = false) ->
  exists pre u post,
    fs = (pre ++ u :: post)%list
    /\ forallb (feed_parses env) pre = true
    /\ feed_parses env u = false
    /\ fst (fetch_articles env b w)
       = Returns (json 500 (Message ("Error fetching articles from " ++ u)))
    /\ trace (snd (fetch_articles env b w)) = (trace w ++ parse_calls (pre ++ [u]))%list
    /\ scan_logs (snd (fetch_articles env b w)) = scan_logs w.
Proof.
  intros Hf Hex.
  destruct (first_failure (feed_parses env) fs Hex) as [pre [u [post [Hfs [Hpre Hu]]]]].
  exists pre, u, post. subst fs.
  rewrite (fetch_articles_fails env b pre u post w Hf Hpre Hu). cbn [fst snd].
  rewrite ticks_trace, ticks_scan_logs.
  repeat split; assumption || reflexivity.
Qed.

Lemma fetch_articles_feed_error_witness :
  exists pre post,
    [Fixture.feedA; "https://nowhere.example"; Fixture.feedB]
      = (pre ++ "https://nowhere.example" :: post)%list
    /\ fst (fetch_articles Fixture.env_ok
              {| feeds := Some [Fixture.feedA; "https://nowhere.example"; Fixture.feedB];
                 openAiContext := Some "AI news" |}
              Fixture.world)
       = Returns (json 500 (Message "Error fetching articles from https://nowhere.example"))
    /\ trace (snd (fetch_articles Fixture.env_ok
                     {| feeds := Some [Fixture.feedA; "https://nowhere.example"; Fixture.feedB];
                        openAiContext := Some "AI news" |}
                     Fixture.world))
       = parse_calls (pre ++ ["https://nowhere.example"]).
Proof.
  destruct (fetch_articles_feed_error Fixture.env_ok
              {| feeds := Some [Fixture.feedA; "https://nowhere.example"; Fixture.feedB];
                 openAiContext := Some "AI news" |}
              [Fixture.feedA; "https://nowhere.example"; Fixture.feedB]
              Fixture.world eq_refl)
    as [pre [u [post [Hfs [Hpre [Hu [Hresp [Htr Hlogs]]]]]]]].
  { exists "https://nowhere.example". split; [right; now left|reflexivity]. }
  assert (Hu' : u = "https://nowhere.example").
  { destruct pre as [|a [|a' [|a'' pre]]]; cbn in Hfs.
    - injection Hfs as <- _. vm_compute in Hu. discriminate Hu.
    - injection Hfs as _ <- _. reflexivity.
    - injection Hfs as <- <- <- _. vm_compute in Hpre. discriminate Hpre.
    - injection Hfs as _ _ _ Hnil. destruct pre; discriminate Hnil. }
  subst u. exists pre, post. auto.
Defined.

(** C3.  A run of the handler either leaves [scan_logs] as it was, or adds
    one row, and then the completion call was made and gave a text before
    the insert was made, and the answer is 200.  In particular a feed that
    does not parse, a missing credential, and a completion call that fails
    each leave [scan_logs] as it was, and so does every run whose answer is
    not 200. *)
Theorem scan_log_only_on_success (env : Env) (b : FetchBody) (w : World) :
  (scan_logs (snd (fetch_articles env b w)) = scan_logs w
   \/ exists fs p t d,
        feeds b = Some fs
        /\ forallb (feed_parses env) fs = true
        /\ JS.truthy (OPENAI_API_KEY env) = true
        /\ completion_text (axios_post env p) = Some t
        /\ trace (snd (fetch_articles env b w))
           = (trace w ++ parse_calls fs ++ [CompletionPost p; ScanLogsInsert d])%list
        /\ scan_logs (snd (fetch_articles env b w))
           = (scan_logs w ++ [ {| scan_date := d |} ])%list
        /\ exists arts, fst (fetch_articles env b w)
                        = Returns (json 200 (Articles arts (JS.trim t))))
  /\ ((exists fs u, feeds b = Some fs /\ In u fs /\ feed_parses env u = false) ->
      scan_logs (snd (fetch_articles env b w)) = scan_logs w)
  /\ (JS.truthy (OPENAI_API_KEY env) = false ->
      scan_logs (snd (fetch_articles env b w)) = scan_logs w)
  /\ ((forall p, completion_text (axios_post env p) = None) ->
      scan_logs (snd (fetch_articles env b w)) = scan_logs w)
  /\ (forall resp, fst (fetch_articles env b w) = Returns resp -> status resp <> 200 ->
      scan_logs (snd (fetch_articles env b w)) = scan_logs w).
Proof.
  assert (Hmain :
    scan_logs (snd (fetch_articles env b w)) = scan_logs w
    \/ exists fs p t d,
         feeds b = Some fs
         /\ forallb (feed_parses env) fs = true
         /\ JS.truthy (OPENAI_API_KEY env) = true
         /\ completion_text (axios_post env p) = Some t
         /\ trace (snd (fetch_articles env b w))
            = (trace w ++ parse_calls fs ++ [CompletionPost p; ScanLogsInsert d])%list
         /\ scan_logs (snd (fetch_articles env b w))
            = (scan_logs w ++ [ {| scan_date := d |} ])%list
         /\ exists arts, fst (fetch_articles env b w)
                         = Returns (json 200 (Articles arts (JS.trim t)))).
  { destruct (fetch_articles_run env b w)
      as [Hf | pre u post Hf Hpre Hu | fs Hf Hall Hk
          | fs p Hf Hall Hk Hp Ht | fs p t d e Hf Hall Hk Hp Ht Hd Hi
          | fs p t d e Hf Hall Hk Hp Ht Hd Hi | fs p t d Hf Hall Hk Hp Ht Hd Hi];
      cbn [fst snd];
      try (left; first [reflexivity | apply ticks_scan_logs]).
    right. exists fs, p, t, d. cbn [logged scan_logs trace].
    rewrite ticks_scan_logs, ticks_trace.
    repeat split; try assumption.
    eexists; reflexivity. }
  split; [exact Hmain|].
  split; [|split; [|split]].
  - intros [fs' [u [Hf' [Hin Hu]]]].
    destruct Hmain as [H|[fs [p [t [d [Hf [Hall _]]]]]]]; [exact H|].
    rewrite Hf in Hf'. injection Hf' as <-.
    rewrite forallb_forall in Hall. rewrite (Hall u Hin) in Hu. discriminate.
  - intro Hk.
    destruct Hmain as [H|[fs [p [t [d [_ [_ [Hk' _]]]]]]]]; [exact H|congruence].
  - intro Hnone.
    destruct Hmain as [H|[fs [p [t [d [_ [_ [_ [Ht _]]]]]]]]]; [exact H|].
    rewrite Hnone in Ht. discriminate.
  - intros resp Hresp Hstatus.
    destruct Hmain as [H|[fs [p [t [d [_ [_ [_ [_ [_ [_ [arts Ha]]]]]]]]]]]]; [exact H|].
    rewrite Ha in Hresp. injection Hresp as <-. cbn in Hstatus. contradiction.
Qed.

Lemma scan_log_only_on_success_witness :
  scan_logs (snd (fetch_articles
                    (Fixture.with_axios (Throws {| message := "Request failed with status code 429" |})
                                        Fixture.env_ok)
                    {| feeds := Some [Fixture.feedA; Fixture.feedB]; openAiContext := Some "AI news" |}
                    Fixture.world))
    = scan_logs Fixture.world
  /\ scan_logs (snd (fetch_articles (Fixture.with_key None Fixture.env_ok)
                       {| feeds := Some [Fixture.feedA]; openAiContext := Some "AI news" |}
                       Fixture.world))
     = scan_logs Fixture.world.
Proof.
  split.
  - apply (proj1 (proj2 (proj2 (proj2 (scan_log_only_on_success
             (Fixture.with_axios (Throws {| message := "Request failed with status code 429" |})
                                 Fixture.env_ok)
             {| feeds := Some [Fixture.feedA; Fixture.feedB]; openAiContext := Some "AI news" |}
             Fixture.world))))).
    intro p. reflexivity.
  - apply (proj1 (proj2 (proj2 (scan_log_only_on_success
             (Fixture.with_key None Fixture.env_ok)
             {| feeds := Some [Fixture.feedA]; openAiContext := Some "AI news" |}
             Fixture.world)))).
    reflexivity.
Defined.

(** C4, as stated, fails: the credential is looked at after the feed loop,
    so with no credential and a feed that does not parse the 500 names the
    feed, not the credential. *)
Lemma no_credential_feed_error_reported :
  JS.truthy (OPENAI_API_KEY (Fixture.with_key None Fixture.env_ok)) = false
  /\ fst (fetch_articles (Fixture.with_key None Fixture.env_ok)
            {| feeds := Some ["https://nowhere.example"]; openAiContext := Some "AI news" |}
            Fixture.world)
     = Returns (json 500 (Message "Error fetching articles from https://nowhere.example"))
  /\ fst (fetch_articles (Fixture.with_key None Fixture.env_ok)
            {| feeds := Some ["https://nowhere.example"]; openAiContext := Some "AI news" |}
            Fixture.world)
     <> Returns (json 500 (Message "OpenAI API key is not set.")).
Proof.
  split; [reflexivity|]. split; [reflexivity|].
  vm_compute. discriminate.
Qed.

(** C4, amended.  With no credential (unset or empty) the handler answers
    500, the only calls it makes are parser calls (so none to the completion
    API) and [scan_logs] is as before; when [feeds] is there and every feed
    parses, the 500 is the one that says the credential is not set. *)
Theorem fetch_articles_no_credential (env : Env) (b : FetchBody) (w : World) :
  JS.truthy (OPENAI_API_KEY env) = false ->
  (exists m, fst (fetch_articles env b w) = Returns (json 500 (Message m)))
  /\ (exists l, trace (snd (fetch_articles env b w)) = (trace w ++ parse_calls l)%list)
  /\ scan_logs (snd (fetch_articles env b w)) = scan_logs w
  /\ (forall fs, feeds b = Some fs -> forallb (feed_parses env) fs = true ->
        fst (fetch_articles env b w) = Returns (json 500 (Message "OpenAI API key is not set."))
        /\ trace (snd (fetch_articles env b w)) = (trace w ++ parse_calls fs)%list).
Proof.
  intro Hk.
  destruct (fetch_articles_run env b w)
    as [Hf | pre u post Hf Hpre Hu | fs0 Hf Hall _
        | fs0 p Hf Hall Hk' _ _ | fs0 p t d e Hf Hall Hk' _ _ _ _
        | fs0 p t d e Hf Hall Hk' _ _ _ _ | fs0 p t d Hf Hall Hk' _ _ _ _];
    cbn [fst snd]; try congruence.
  - split; [eexists; reflexivity|].
    split; [exists []; cbn; now rewrite app_nil_r|].
    split; [reflexivity|].
    intros fs Hf'. congruence.
  - rewrite ticks_trace, ticks_scan_logs.
    split; [eexists; reflexivity|].
    split; [eexists; reflexivity|].
    split; [reflexivity|].
    intros fs Hf' Hall. exfalso.
    rewrite Hf in Hf'. injection Hf' as <-.
    rewrite forallb_app in Hall. apply andb_true_iff in Hall. destruct Hall as [_ Hall].
    cbn in Hall. rewrite Hu in Hall. discriminate.
  - rewrite ticks_trace, ticks_scan_logs.
    split; [eexists; reflexivity|].
    split; [eexists; reflexivity|].
    split; [reflexivity|].
    intros fs Hf' _. rewrite Hf in Hf'. injection Hf' as <-. split; reflexivity.
Qed.

Lemma fetch_articles_no_credential_witness :
  fst (fetch_articles (Fixture.with_key (Some EmptyString) Fixture.env_ok)
         {| feeds := Some [Fixture.feedA]; openAiContext := Some "AI news" |}
         Fixture.world)
    = Returns (json 500 (Message "OpenAI API key is not set."))
  /\ trace (snd (fetch_articles (Fixture.with_key (Some EmptyString) Fixture.env_ok)
                   {| feeds := Some [Fixture.feedA]; openAiContext := Some "AI news" |}
                   Fixture.world))
     = [ParseURL (Some Fixture.feedA)].
Proof.
  apply (proj2 (proj2 (proj2 (fetch_articles_no_credential
           (Fixture.with_key (Some EmptyString) Fixture.env_ok)
           {| feeds := Some [Fixture.feedA]; openAiContext := Some "AI news" |}
           Fixture.world eq_refl))) [Fixture.feedA] eq_refl eq_refl).
Defined.

(** C9, as stated, fails: a body without [openAiContext] is served like any
    other, with the completion call and the insert made and 200 answered. *)
Lemma missing_openAiContext_served :
  fst (fetch_articles Fixture.env_ok {| feeds := Some []; openAiContext := None |} Fixture.world)
    = Returns (json 200 (Articles [] "a1, b1"))
  /\ trace (snd (fetch_articles Fixture.env_ok
                   {| feeds := Some []; openAiContext := None |} Fixture.world))
     = [CompletionPost (prompt None); ScanLogsInsert (Fixture.noon + 5)]
  /\ ~ rejected_before_any_call Fixture.world
         (fetch_articles Fixture.env_ok {| feeds := Some []; openAiContext := None |}
            Fixture.world).
Proof.
  split; [reflexivity|]. split; [reflexivity|].
  intros [_ Htrace]. vm_compute in Htrace. discriminate Htrace.
Qed.

(** C9, amended.  No handler checks its body for the fields it reads.
    Without [openAiContext] the request is served as if the guidance were
    the text [undefined]; without [feeds] the answer is the 500 of the outer
    [catch], with no call made; without [url] the parser is called with
    [undefined] and the answer is the one its outcome gives. *)
Theorem missing_fields_not_checked (env : Env) (w : World) :
  (forall fs,
     fetch_articles env {| feeds := Some fs; openAiContext := None |} w
     = fetch_articles env {| feeds := Some fs; openAiContext := Some "undefined" |} w)
  /\ (forall ctx,
        fetch_articles env {| feeds := None; openAiContext := ctx |} w
        = (Returns (json 500 (Message "Error fetching articles")), w))
  /\ trace (snd (validate_feed env {| url := None |} w)) = (trace w ++ [ParseURL None])%list
  /\ fst (validate_feed env {| url := None |} w)
     = Returns match parseURL env None with
               | Returns (Some _) => json 200 (Message "RSS feed is valid")
               | Returns None => json 400 (Message "Invalid RSS feed format")
               | Throws _ => json 500 (Message "Error parsing RSS feed")
               end.
Proof.
  split; [|split; [|split]].
  - intro fs. reflexivity.
  - intro ctx. now apply fetch_articles_no_feeds.
  - unfold validate_feed, try_catch, bind, parser_parseURL, ret. cbn [url].
    destruct (parseURL env None) as [[f|]|e]; reflexivity.
  - unfold validate_feed, try_catch, bind, parser_parseURL, ret. cbn [url].
    destruct (parseURL env None) as [[f|]|e]; reflexivity.
Qed.




(** The answer of the insert is not looked at: when the store refuses the
    row the request is still answered 200 and [scan_logs] is as before; when
    the insert throws, the inner [catch] answers 500. *)
Example insert_refused_still_200 :
  fetch_articles
    (Fixture.with_insert (Returns (Some {| message := "permission denied" |})) Fixture.env_ok)
    {| feeds := Some []; openAiContext := Some "AI news" |} Fixture.world
  = (Returns (json 200 (Articles [] "a1, b1")),
     ticks Fixture.env_ok
       [CompletionPost (prompt (Some "AI news")); ScanLogsInsert (Fixture.noon + 5)]
       Fixture.world).
Proof. reflexivity. Qed.

Example insert_throws_500 :
  fst (fetch_articles
         (Fixture.with_insert (Throws {| message := "fetch failed" |}) Fixture.env_ok)
         {| feeds := Some []; openAiContext := Some "AI news" |} Fixture.world)
  = Returns (json 500 (Message "Error during OpenAI request")).
Proof. reflexivity. Qed.

(** After a run with no feed at all, the day counts as scanned. *)
Example scanned_with_no_article :
  fst (check_scan Fixture.env_ok
         (snd (fetch_articles Fixture.env_ok
                 {| feeds := Some []; openAiContext := Some "AI news" |} Fixture.world)))
  = Returns (json 200 (ScanDone true)).
Proof. reflexivity. Qed.

(** ** What the handlers do on every run *)

Lemma delete_user_row_run (env : Env) (userId : string) (w : World) :
  let w2 := tick env (UsersDelete userId) w in
  delete_user_row env userId w
  = match users_delete env userId with
    | Throws e => (Throws e, w2)
    | Returns (Some e) =>
        (Returns (json 500 (Message ("Failed to delete user from users table: " ++ message e))),
         w2)
    | Returns None =>
        (Returns
           match filter (fun u => String.eqb (User.id u) userId) (users w) with
           | [] => json 404 (Message "No user was deleted from users table. Please ensure the user exists and you have the right permissions.")
           | _ :: _ => json 200 (Message "User deleted successfully from both authentication and users table.")
           end,
         without_user userId w2)
    end.
Proof.
  intro w2. unfold delete_user_row, bind, from_users_delete_eq_id. fold w2.
  destruct (users_delete env userId) as [[e|]|e]; try reflexivity.
  cbn [error data]. unfold without_user.
  change (users w2) with (users w).
  destruct (filter (fun u => String.eqb (User.id u) userId) (users w)); reflexivity.
Qed.

Lemma delete_user_run (env : Env) (userId : string) (w : World) :
  delete_run env userId w (delete_user env userId w).
Proof.
  assert (Hrow : auth_step_continues env userId = true ->
            delete_run env userId w
              (try_catch (delete_user_row env userId)
                 (fun _ => ret (json 500 (Message "Unexpected error occurred while deleting user.")))
                 (tick env (AuthDeleteUser userId) w))).
  { intro Hc. unfold try_catch. rewrite delete_user_row_run.
    change (users (tick env (AuthDeleteUser userId) w)) with (users w).
    change (tick env (UsersDelete userId) (tick env (AuthDeleteUser userId) w))
      with (ticks env [AuthDeleteUser userId; UsersDelete userId] w).
    destruct (users_delete env userId) as [[e|]|e] eqn:Hd.
    - now apply del_store_error.
    - destruct (filter (fun u => String.eqb (User.id u) userId) (users w)) eqn:Hf.
      + now apply del_no_row.
      + apply del_rows; auto. rewrite Hf. discriminate.
    - now apply del_store_throws with (e := e). }
  unfold auth_step_continues in Hrow.
  unfold delete_user. unfold try_catch at 1. unfold bind, auth_admin_deleteUser.
  destruct (auth_deleteUser env userId) as [[e|]|e] eqn:Ha.
  - destruct (String.eqb (message e) "User not found") eqn:Hm.
    + exact (Hrow eq_refl).
    + apply del_auth_error; [exact Ha|]. now apply String.eqb_neq.
  - exact (Hrow eq_refl).
  - now apply del_auth_throws with (e := e).
Qed.

(** X1.  No exception leaves a handler: every request is answered, DELETE
    /delete-user with 200, 404 or 500, POST /validate-feed with 200, 400 or
    500, GET /check-scan and POST /fetch-articles with 200 or 500, and every
    answer that is not 200 carries a message. *)
Theorem handlers_always_answer (env : Env) (w : World) :
  (forall userId, answers [200; 404; 500] (delete_user env userId w))
  /\ (forall b, answers [200; 400; 500] (validate_feed env b w))
  /\ answers [200; 500] (check_scan env w)
  /\ (forall b, answers [200; 500] (fetch_articles env b w)).
Proof.
  unfold answers.
  split; [|split; [|split]].
  - intro userId.
    destruct (delete_user_run env userId w);
      eexists; cbn; (split; [reflexivity|]); (split; [tauto|]);
      intros; eexists; reflexivity.
  - intro b.
    unfold validate_feed, try_catch, bind, parser_parseURL, ret.
    destruct (parseURL env (url b)) as [[f|]|e];
      eexists; cbn; (split; [reflexivity|]); (split; [tauto|]);
      intros; eexists; reflexivity.
  - unfold check_scan, try_catch, bind, startOfToday, bind, new_Date, ret,
      from_scan_logs_select_gte.
    destruct (scan_logs_select env _) as [[e|]|e];
      try destruct (filter _ (scan_logs w));
      eexists; cbn; (split; [reflexivity|]); (split; [tauto|]);
      intros; try (eexists; reflexivity); contradiction.
  - intro b.
    destruct (fetch_articles_run env b w);
      eexists; cbn; (split; [reflexivity|]); (split; [tauto|]);
      intros; try (eexists; reflexivity); contradiction.
Qed.

(** X2.  An exception thrown by the auth call or by the deletion from
    [users] is answered by the outer [catch]: 500 with the fixed message of
    line 59.  After a throwing auth call no deletion is attempted; after a
    throwing deletion the table is as before. *)
Theorem delete_user_exception (env : Env) (userId : string) (w : World) (e : Error) :
  (auth_deleteUser env userId = Throws e ->
     fst (delete_user env userId w)
       = Returns (json 500 (Message "Unexpected error occurred while deleting user."))
     /\ users (snd (delete_user env userId w)) = users w
     /\ trace (snd (delete_user env userId w)) = (trace w ++ [AuthDeleteUser userId])%list)
  /\ (auth_step_continues env userId = true ->
      users_delete env userId = Throws e ->
      fst (delete_user env userId w)
        = Returns (json 500 (Message "Unexpected error occurred while deleting user."))
      /\ users (snd (delete_user env userId w)) = users w
      /\ trace (snd (delete_user env userId w))
         = (trace w ++ [AuthDeleteUser userId; UsersDelete userId])%list).
Proof.
  split.
  - intro Ha.
    destruct (delete_user_run env userId w) as [e' Ha'|e' Ha' _|e' Hc _|e' Hc _|Hc _ _|Hc _ _];
      try (unfold auth_step_continues in Hc; rewrite Ha in Hc; discriminate);
      try congruence.
    cbn [fst snd]. rewrite ticks_users, ticks_trace. auto.
  - intros Hc Hd. unfold auth_step_continues in Hc.
    destruct (delete_user_run env userId w) as [e' Ha'|e' Ha' Hm|e' _ Hd'|e' _ Hd'|_ Hd' _|_ Hd' _];
      try congruence.
    + rewrite Ha' in Hc. discriminate.
    + rewrite Ha' in Hc. apply String.eqb_eq in Hc. contradiction.
    + cbn [fst snd]. rewrite ticks_users, ticks_trace. auto.
Qed.

Lemma delete_user_exception_witness :
  fst (delete_user (Fixture.with_auth (Throws {| message := "fetch failed" |}) Fixture.env_ok)
         "u1" Fixture.world)
    = Returns (json 500 (Message "Unexpected error occurred while deleting user."))
  /\ users (snd (delete_user
                   (Fixture.with_users_delete (Throws {| message := "fetch failed" |})
                                              Fixture.env_ok)
                   "u1" Fixture.world))
     = [Fixture.alice; Fixture.bob].
Proof.
  split.
  - apply (proj1 (delete_user_exception
             (Fixture.with_auth (Throws {| message := "fetch failed" |}) Fixture.env_ok)
             "u1" Fixture.world {| message := "fetch failed" |}) eq_refl).
  - apply (proj2 (delete_user_exception
             (Fixture.with_users_delete (Throws {| message := "fetch failed" |}) Fixture.env_ok)
             "u1" Fixture.world {| message := "fetch failed" |}) eq_refl eq_refl).
Defined.

(** X3.  Whatever the collaborators answer, DELETE /delete-user calls the
    auth subsystem first and the store at most once after it, never touches
    [scan_logs], never adds a row to [users], and keeps every row of
    another user. *)
Theorem delete_user_frame (env : Env) (userId : string) (w : World) :
  scan_logs (snd (delete_user env userId w)) = scan_logs w
  /\ (trace (snd (delete_user env userId w)) = (trace w ++ [AuthDeleteUser userId])%list
      \/ trace (snd (delete_user env userId w))
         = (trace w ++ [AuthDeleteUser userId; UsersDelete userId])%list)
  /\ (forall u, In u (users (snd (delete_user env userId w))) -> In u (users w))
  /\ (forall u, In u (users w) -> User.id u <> userId ->
                In u (users (snd (delete_user env userId w)))).
Proof.
  assert (Hkeep : forall u, In u (users w) -> User.id u <> userId ->
            In u (filter (fun u => negb (String.eqb (User.id u) userId)) (users w))).
  { intros u Hin Hne. apply filter_In. split; [exact Hin|].
    apply negb_true_iff. now apply String.eqb_neq. }
  assert (Hsub : forall u,
            In u (filter (fun u => negb (String.eqb (User.id u) userId)) (users w)) ->
            In u (users w)).
  { intros u Hin. now apply filter_In in Hin. }
  destruct (delete_user_run env userId w);
    cbn [fst snd without_user users scan_logs trace];
    rewrite ?ticks_users, ?ticks_scan_logs, ?ticks_trace; auto.
Qed.

Lemma delete_user_frame_witness :
  In Fixture.bob (users (snd (delete_user Fixture.env_ok "u1" Fixture.world))).
Proof.
  apply (proj2 (proj2 (proj2 (delete_user_frame Fixture.env_ok "u1" Fixture.world)))).
  - right. now left.
  - cbn. discriminate.
Defined.

(** X4.  Deleting the same user again, once the store has performed the
    first deletion, is answered 404: the rows are gone. *)
Theorem delete_user_twice (env1 env2 : Env) (userId : string) (w : World) :
  auth_step_continues env1 userId = true ->
  users_delete env1 userId = Returns None ->
  auth_step_continues env2 userId = true ->
  users_delete env2 userId = Returns None ->
  fst (delete_user env2 userId (snd (delete_user env1 userId w)))
  = Returns (json 404 (Message "No user was deleted from users table. Please ensure the user exists and you have the right permissions.")).
Proof.
  intros Ha1 Hd1 Ha2 Hd2.
  assert (Hgone : filter (fun u => String.eqb (User.id u) userId)
                    (filter (fun u => negb (String.eqb (User.id u) userId)) (users w)) = []).
  { apply filter_nil_iff. intros u Hu. apply filter_In in Hu.
    destruct Hu as [_ Hu]. now apply negb_true_iff in Hu. }
  assert (Hfirst : users (snd (delete_user env1 userId w))
                   = filter (fun u => negb (String.eqb (User.id u) userId)) (users w)).
  { unfold auth_step_continues in Ha1.
    destruct (delete_user_run env1 userId w) as [e Ha|e Ha Hm|e _ Hd|e _ Hd|_ _ _|_ _ _];
      try congruence.
    - rewrite Ha in Ha1. discriminate.
    - rewrite Ha in Ha1. apply String.eqb_eq in Ha1. contradiction.
    - cbn [snd without_user users]. now rewrite ticks_users.
    - cbn [snd without_user users]. now rewrite ticks_users. }
  unfold auth_step_continues in Ha2.
  destruct (delete_user_run env2 userId (snd (delete_user env1 userId w)))
    as [e Ha|e Ha Hm|e _ Hd|e _ Hd|_ _ _|_ _ Hrows].
  - rewrite Ha in Ha2. discriminate.
  - rewrite Ha in Ha2. apply String.eqb_eq in Ha2. contradiction.
  - congruence.
  - congruence.
  - reflexivity.
  - exfalso. apply Hrows. rewrite Hfirst. exact Hgone.
Qed.

Lemma delete_user_twice_witness :
  fst (delete_user
         (Fixture.with_auth (Returns (Some {| message := "User not found" |})) Fixture.env_ok)
         "u1" (snd (delete_user Fixture.env_ok "u1" Fixture.world)))
  = Returns (json 404 (Message "No user was deleted from users table. Please ensure the user exists and you have the right permissions.")).
Proof.
  apply (delete_user_twice Fixture.env_ok
           (Fixture.with_auth (Returns (Some {| message := "User not found" |})) Fixture.env_ok)
           "u1" Fixture.world); reflexivity.
Defined.

(** X5.  POST /validate-feed and GET /check-scan only read: each makes
    exactly one call (the parser with the given [url]; the query on
    [scan_logs] from local midnight), whatever its outcome, and leaves both
    tables as they were. *)
Theorem read_only_handlers (env : Env) (w : World) :
  (forall b,
     trace (snd (validate_feed env b w)) = (trace w ++ [ParseURL (url b)])%list
     /\ users (snd (validate_feed env b w)) = users w
     /\ scan_logs (snd (validate_feed env b w)) = scan_logs w)
  /\ trace (snd (check_scan env w))
     = (trace w ++ [ScanLogsSelect (JS.setHours0 (LocalTZA env) (clock w))])%list
  /\ users (snd (check_scan env w)) = users w
  /\ scan_logs (snd (check_scan env w)) = scan_logs w.
Proof.
  split.
  - intro b. unfold validate_feed, try_catch, bind, parser_parseURL, ret.
    destruct (parseURL env (url b)) as [[f|]|e]; cbn; auto.
  - unfold check_scan, try_catch, bind, startOfToday, bind, new_Date, ret,
      from_scan_logs_select_gte.
    destruct (scan_logs_select env _) as [[e|]|e];
      try destruct (filter _ (scan_logs w)); cbn; auto.
Qed.

(** ** Days, clocks and scans *)

Lemma clock_ticks_le (env : Env) (evs : list event) (w : World) :
  (forall ev, 0 <= latency env ev) -> clock w <= clock (ticks env evs w).
Proof.
  intro Hlat. revert w. induction evs as [|ev evs IH]; intro w; [cbn; lia|].
  change (ticks env (ev :: evs) w) with (ticks env evs (tick env ev w)).
  specialize (IH (tick env ev w)). cbn [tick clock] in IH.
  specialize (Hlat ev). lia.
Qed.

Lemma check_scan_ok (env : Env) (w : World) :
  scan_logs_select env (JS.setHours0 (LocalTZA env) (clock w)) = Returns None ->
  fst (check_scan env w)
  = Returns (json 200 (ScanDone
      (existsb (fun r => JS.setHours0 (LocalTZA env) (clock w) <=? scan_date r)
               (scan_logs w)))).
Proof.
  intro Hok.
  unfold check_scan, try_catch, bind, startOfToday, bind, new_Date, ret,
    from_scan_logs_select_gte.
  rewrite Hok. cbn [error data].
  induction (scan_logs w) as [|r l IH]; [reflexivity|].
  cbn [filter existsb].
  destruct (JS.setHours0 (LocalTZA env) (clock w) <=? scan_date r); [reflexivity|].
  exact IH.
Qed.



(** X7.  The calls of a run of POST /fetch-articles: first the parser, on
    the feed URLs of a prefix of [feeds], in order and once each; then
    nothing, or one completion call, or one completion call and one insert.
    A completion call is made only after all of [feeds] was fetched, and its
    prompt is the instruction line followed by the blocks of today's
    articles.  The table [users] is never touched, and [scan_logs] stays as
    it is or grows by one row. *)
Theorem fetch_articles_calls (env : Env) (b : FetchBody) (w : World) :
  users (snd (fetch_articles env b w)) = users w
  /\ (scan_logs (snd (fetch_articles env b w)) = scan_logs w
      \/ exists d, scan_logs (snd (fetch_articles env b w))
                   = (scan_logs w ++ [ {| scan_date := d |} ])%list)
  /\ exists l rest,
       trace (snd (fetch_articles env b w)) = (trace w ++ parse_calls l ++ rest)%list
       /\ closing_calls rest
       /\ (feeds b = None /\ l = [] \/ exists post, feeds b = Some (l ++ post)%list)
       /\ (rest = []
           \/ feeds b = Some l
              /\ exists tail,
                   rest = CompletionPost
                            (prompt (openAiContext b)
                             ++ promptText
                                  (todayArticles env (JS.setHours0 (LocalTZA env) (clock w)) l))
                          :: tail).
Proof.
  destruct (fetch_articles_run env b w)
    as [Hf | pre u post Hf Hpre Hu | fs Hf Hall Hk
        | fs p Hf Hall Hk Hp Ht | fs p t d e Hf Hall Hk Hp Ht Hd Hi
        | fs p t d e Hf Hall Hk Hp Ht Hd Hi | fs p t d Hf Hall Hk Hp Ht Hd Hi];
    cbn [fst snd logged users scan_logs trace];
    rewrite ?ticks_users, ?ticks_scan_logs, ?ticks_trace;
    (split; [reflexivity|]).
  - split; [now left|]. exists [], []. cbn. rewrite app_nil_r.
    repeat split; [constructor|now left|now left].
  - split; [now left|]. exists (pre ++ [u])%list, [].
    rewrite app_nil_r. repeat split; [constructor| |now left].
    right. exists post. now rewrite <- app_assoc.
  - split; [now left|]. exists fs, []. rewrite app_nil_r.
    repeat split; [constructor| |now left].
    right. exists []. now rewrite app_nil_r.
  - split; [now left|]. exists fs, [CompletionPost p].
    repeat split; [constructor| |].
    + right. exists []. now rewrite app_nil_r.
    + right. split; [exact Hf|]. exists []. now rewrite Hp.
  - split; [now left|]. exists fs, [CompletionPost p; ScanLogsInsert d].
    repeat split; [constructor| |].
    + right. exists []. now rewrite app_nil_r.
    + right. split; [exact Hf|]. eexists. now rewrite Hp.
  - split; [now left|]. exists fs, [CompletionPost p; ScanLogsInsert d].
    repeat split; [constructor| |].
    + right. exists []. now rewrite app_nil_r.
    + right. split; [exact Hf|]. eexists. now rewrite Hp.
  - split; [right; now exists d|]. exists fs, [CompletionPost p; ScanLogsInsert d].
    repeat split; [constructor| |].
    + right. exists []. now rewrite app_nil_r.
    + right. split; [exact Hf|]. eexists. now rewrite Hp.
Qed.

(** X8.  After POST /fetch-articles was answered 200 with the row taken by
    the store, GET /check-scan made on the resulting state answers
    [scanDone: true], provided the runtime gives that later request the
    bound it gave the first one (the local day has not changed), that this
    bound is not after the first request, and that calls take no negative
    time. *)
Theorem fetch_then_check_scan (env : Env) (b : FetchBody) (w : World)
  (arts : list Article.t) (top : string) :
  (forall ev, 0 <= latency env ev) ->
  (forall d, scan_logs_insert env d = Returns None) ->
  fst (fetch_articles env b w) = Returns (json 200 (Articles arts top)) ->
  JS.setHours0 (LocalTZA env) (clock (snd (fetch_articles env b w)))
    = JS.setHours0 (LocalTZA env) (clock w) ->
  JS.setHours0 (LocalTZA env) (clock w) <= clock w ->
  scan_logs_select env (JS.setHours0 (LocalTZA env) (clock (snd (fetch_articles env b w))))
    = Returns None ->
  fst (check_scan env (snd (fetch_articles env b w))) = Returns (json 200 (ScanDone true)).
Proof.
  intros Hlat Hins Hresp Hsame Hle Hsel.
  rewrite (check_scan_ok env _ Hsel). do 3 f_equal.
  rewrite Hsame. clear Hsel Hsame.
  destruct (fetch_articles_run env b w)
    as [Hf | pre u post Hf Hpre Hu | fs Hf Hall Hk
        | fs p Hf Hall Hk Hp Ht | fs p t d e Hf Hall Hk Hp Ht Hd Hi
        | fs p t d e Hf Hall Hk Hp Ht Hd Hi | fs p t d Hf Hall Hk Hp Ht Hd Hi];
    cbn [fst] in Hresp; try discriminate.
  - rewrite Hins in Hi. discriminate.
  - cbn [snd logged scan_logs]. rewrite ticks_scan_logs.
    rewrite existsb_app. cbn [existsb scan_date].
    assert (Hd' : JS.setHours0 (LocalTZA env) (clock w) <= d).
    { pose proof (clock_ticks_le env (parse_calls fs ++ [CompletionPost p]) w Hlat) as Hc.
      rewrite <- Hd in Hc. lia. }
    apply Z.leb_le in Hd'. rewrite Hd'. now rewrite orb_true_r.
Qed.

Lemma fetch_then_check_scan_witness :
  fst (check_scan Fixture.env_ok
         (snd (fetch_articles Fixture.env_ok
                 {| feeds := Some [Fixture.feedA]; openAiContext := Some "AI news" |}
                 Fixture.world)))
  = Returns (json 200 (ScanDone true)).
Proof.
  eapply (fetch_then_check_scan Fixture.env_ok
            {| feeds := Some [Fixture.feedA]; openAiContext := Some "AI news" |}
            Fixture.world).
  - intro ev. cbn. lia.
  - intro d. reflexivity.
  - reflexivity.
  - reflexivity.
  - vm_compute. discriminate.
  - reflexivity.
Defined.

(** ** Article ids *)

Lemma append_assoc (a b c : string) : ((a ++ b) ++ c = a ++ (b ++ c))%string.
Proof. induction a as [|x a IH]; cbn; [reflexivity|now rewrite IH]. Qed.

Lemma append_length (a b : string) :
  String.length (a ++ b) = (String.length a + String.length b)%nat.
Proof. induction a as [|x a IH]; cbn; [reflexivity|now rewrite IH]. Qed.

Lemma append_same_length_inj (u1 u2 s1 s2 : string) :
  String.length u1 = String.length u2 ->
  (u1 ++ s1 = u2 ++ s2)%string ->
  u1 = u2 /\ s1 = s2.
Proof.
  revert u2. induction u1 as [|x u1 IH]; intros [|y u2] Hlen Heq; try discriminate.
  - auto.
  - cbn in Hlen, Heq. injection Hlen as Hlen. injection Heq as -> Heq.
    destruct (IH u2 Hlen Heq) as [-> ->]. auto.
Qed.

(** X9.  For two feed URLs of the same length (the same feed among them),
    two articles have the same [id] exactly when the feed URL is the same
    and the guids read the same in the template of line 123. *)
Theorem article_id_same_length (u1 u2 : string) (it1 it2 : Item.t) :
  String.length u1 = String.length u2 ->
  (Article.id (mkArticle u1 it1) = Article.id (mkArticle u2 it2)
   <-> u1 = u2 /\ JS.ToString (Item.guid it1) = JS.ToString (Item.guid it2)).
Proof.
  intro Hlen. cbn [mkArticle Article.id]. split.
  - intro Heq. destruct (append_same_length_inj _ _ _ _ Hlen Heq) as [Hu Hs].
    split; [exact Hu|]. cbn in Hs. now injection Hs.
  - intros [-> ->]. reflexivity.
Qed.

Lemma article_id_same_length_witness :
  Article.id (mkArticle Fixture.feedA
                (Fixture.item "a1" "today 09:00" None None))
  = Article.id (mkArticle Fixture.feedB
                  (Fixture.item "a1" "today 09:00" None None))
  <-> Fixture.feedA = Fixture.feedB /\ "a1" = "a1".
Proof.
  apply (article_id_same_length Fixture.feedA Fixture.feedB
           (Fixture.item "a1" "today 09:00" None None)
           (Fixture.item "a1" "today 09:00" None None)).
  reflexivity.
Defined.

(** X10.  The [id] does not tell every two items apart.  An item without a
    guid gets the same [id] as an item of the same feed whose guid is the
    text [undefined]; and an item of the feed [u_] with guid [g] gets the
    same [id] as an item of the different feed [u] with guid [_g]. *)
Theorem article_id_collisions (u g : string) (it1 it2 : Item.t) :
  (Item.guid it1 = None -> Item.guid it2 = Some "undefined" ->
     Article.id (mkArticle u it1) = Article.id (mkArticle u it2))
  /\ (Item.guid it1 = Some g -> Item.guid it2 = Some ("_" ++ g) ->
      (u ++ "_")%string <> u
      /\ Article.id (mkArticle (u ++ "_") it1) = Article.id (mkArticle u it2)).
Proof.
  cbn [mkArticle Article.id]. split.
  - intros -> ->. reflexivity.
  - intros -> ->. split.
    + intro Heq. apply (f_equal String.length) in Heq.
      rewrite append_length in Heq. cbn in Heq. lia.
    + cbn [JS.ToString]. now rewrite append_assoc.
Qed.

Lemma article_id_collisions_witness :
  Article.id (mkArticle "https://a.example/feed_"
                (Fixture.item "42" "today 09:00" None None))
  = Article.id (mkArticle "https://a.example/feed"
                  (Fixture.item "_42" "today 09:00" None None)).
Proof.
  apply (proj2 (article_id_collisions "https://a.example/feed" "42"
                  (Fixture.item "42" "today 09:00" None None)
                  (Fixture.item "_42" "today 09:00" None None))
               eq_refl eq_refl).
Defined.

(** ** The text of the completion *)

Section Strip.

Variable ps : list (list ascii).
Hypothesis ps_nonempty : forall p, In p ps -> p <> [].

Lemma strip_app (p l r : list ascii) :
  JS.strip p l = Some r -> l = (p ++ r)%list.
Proof.
  revert l. induction p as [|a p IH]; intros l H.
  - cbn in H. now injection H as ->.
  - destruct l as [|c l]; [discriminate|]. cbn in H.
    destruct (Ascii.eqb a c) eqn:Hac; [|discriminate].
    apply Ascii.eqb_eq in Hac. subst c. cbn. f_equal. now apply IH.
Qed.

Lemma strip_more (p l r z : list ascii) :
  JS.strip p l = Some r -> JS.strip p (l ++ z) = Some (r ++ z)%list.
Proof.
  revert l. induction p as [|a p IH]; intros l H.
  - cbn in H. injection H as ->. reflexivity.
  - destruct l as [|c l]; [discriminate|]. cbn in H. cbn.
    destruct (Ascii.eqb a c); [|discriminate]. now apply IH.
Qed.

Lemma strip_any_in (l r : list ascii) :
  JS.strip_any ps l = Some r -> exists p, In p ps /\ JS.strip p l = Some r.
Proof.
  clear ps_nonempty. induction ps as [|p ps' IH]; [discriminate|]. cbn.
  destruct (JS.strip p l) as [r'|] eqn:Hp.
  - intro H. injection H as ->. exists p. auto.
  - intro H. destruct (IH H) as [q [Hq Hs]]. exists q. auto.
Qed.

Lemma strip_any_shorter (l r : list ascii) :
  JS.strip_any ps l = Some r -> (List.length r < List.length l)%nat.
Proof.
  intro H. destruct (strip_any_in l r H) as [p [Hin Hp]].
  apply strip_app in Hp. subst l. rewrite length_app.
  specialize (ps_nonempty p Hin). destruct p; [contradiction|]. cbn. lia.
Qed.

Lemma strip_any_more (l r z : list ascii) :
  JS.strip_any ps l = Some r -> exists r', JS.strip_any ps (l ++ z) = Some r'.
Proof.
  clear ps_nonempty. induction ps as [|p ps' IH]; [discriminate|]. cbn.
  destruct (JS.strip p l) as [r'|] eqn:Hp.
  - intros _. rewrite (strip_more p l r' z Hp). eexists; reflexivity.
  - intro H. destruct (JS.strip p (l ++ z)); [eexists; reflexivity|]. now apply IH.
Qed.

(** The rounds are enough: nothing is left to remove. *)
Lemma strip_all_done (n : nat) (l : list ascii) :
  (List.length l <= n)%nat -> JS.strip_any ps (JS.strip_all n ps l) = None.
Proof.
  revert l. induction n as [|n IH]; intros l Hlen.
  - destruct l; [|cbn in Hlen; lia]. cbn.
    destruct (JS.strip_any ps []) as [r|] eqn:H; [|reflexivity].
    apply strip_any_shorter in H. cbn in H. lia.
  - cbn. destruct (JS.strip_any ps l) as [r|] eqn:H; [|exact H].
    apply IH. apply strip_any_shorter in H. lia.
Qed.

Lemma strip_all_suffix (n : nat) (l : list ascii) :
  exists pre, l = (pre ++ JS.strip_all n ps l)%list.
Proof.
  clear ps_nonempty. revert l. induction n as [|n IH]; intro l; [now exists []|].
  cbn. destruct (JS.strip_any ps l) as [r|] eqn:H; [|now exists []].
  destruct (strip_any_in l r H) as [p [_ Hp]]. apply strip_app in Hp.
  destruct (IH r) as [pre Hpre]. exists (p ++ pre)%list.
  rewrite <- app_assoc, <- Hpre. exact Hp.
Qed.

Lemma strip_all_fixed (n : nat) (l : list ascii) :
  JS.strip_any ps l = None -> JS.strip_all n ps l = l.
Proof. intro H. destruct n; [reflexivity|]. cbn. now rewrite H. Qed.

End Strip.

Lemma white_space_nonempty (p : list ascii) : In p JS.white_space -> p <> [].
Proof.
  intros Hin ->. revert Hin. unfold JS.white_space. cbn [map In].
  intuition discriminate.
Qed.

Lemma white_space_rev_nonempty (p : list ascii) :
  In p (map (@rev ascii) JS.white_space) -> p <> [].
Proof.
  intros Hin ->. revert Hin. unfold JS.white_space. cbn [map In rev app].
  intuition discriminate.
Qed.

(** What [trim] gives has nothing left to trim at either end. *)
Lemma trim_ends (t : string) :
  starts_with_white_space (JS.trim t) = false
  /\ ends_with_white_space (JS.trim t) = false
  /\ JS.trim (JS.trim t) = JS.trim t.
Proof.
  unfold starts_with_white_space, ends_with_white_space, JS.trim.
  rewrite list_ascii_of_string_of_list_ascii.
  set (y := JS.trimStart (list_ascii_of_string t)).
  assert (Hy : JS.strip_any JS.white_space y = None).
  { apply (strip_all_done _ white_space_nonempty). apply Nat.le_refl. }
  unfold JS.trimEnd at 1 2 3.
  set (x := JS.strip_all (List.length y) (map (@rev ascii) JS.white_space) (rev y)).
  assert (Hx : JS.strip_any (map (@rev ascii) JS.white_space) x = None).
  { apply (strip_all_done _ white_space_rev_nonempty). rewrite length_rev. apply Nat.le_refl. }
  assert (Hs : JS.strip_any JS.white_space (rev x) = None).
  { destruct (strip_all_suffix (map (@rev ascii) JS.white_space) (List.length y) (rev y))
      as [pre Hpre].
    fold x in Hpre. apply (f_equal (@rev ascii)) in Hpre.
    rewrite rev_involutive, rev_app_distr in Hpre.
    destruct (JS.strip_any JS.white_space (rev x)) as [r|] eqn:H; [|reflexivity].
    destruct (strip_any_more _ _ _ (rev pre) H) as [r' Hr'].
    rewrite <- Hpre, Hy in Hr'. discriminate. }
  split; [|split].
  - now rewrite Hs.
  - now rewrite rev_involutive, Hx.
  - f_equal. unfold JS.trimStart, JS.trimEnd.
    rewrite (strip_all_fixed _ _ _ Hs), rev_involutive.
    now rewrite (strip_all_fixed _ _ _ Hx).
Qed.

(** X11.  The [topArticles] of a 200 answer is the trimmed text of the
    first choice of the completion that answered the prompt sent: it
    neither starts nor ends with a white space or line terminator of
    ECMAScript, and trimming it again changes nothing. *)
Theorem topArticles_trimmed (env : Env) (b : FetchBody) (w : World)
  (arts : list Article.t) (top : string) :
  fst (fetch_articles env b w) = Returns (json 200 (Articles arts top)) ->
  (exists fs t,
     feeds b = Some fs
     /\ completion_text
          (axios_post env
             (prompt (openAiContext b)
              ++ promptText (todayArticles env (JS.setHours0 (LocalTZA env) (clock w)) fs)))
        = Some t
     /\ top = JS.trim t)
  /\ starts_with_white_space top = false
  /\ ends_with_white_space top = false
  /\ JS.trim top = top.
Proof.
  intro Hresp.
  assert (Htop : exists fs t,
            feeds b = Some fs
            /\ completion_text
                 (axios_post env
                    (prompt (openAiContext b)
                     ++ promptText
                          (todayArticles env (JS.setHours0 (LocalTZA env) (clock w)) fs)))
               = Some t
            /\ top = JS.trim t).
  { destruct (fetch_articles_run env b w)
      as [Hf | pre u post Hf Hpre Hu | fs Hf Hall Hk
          | fs p Hf Hall Hk Hp Ht | fs p t d e Hf Hall Hk Hp Ht Hd Hi
          | fs p t d e Hf Hall Hk Hp Ht Hd Hi | fs p t d Hf Hall Hk Hp Ht Hd Hi];
      cbn [fst] in Hresp; try discriminate;
      injection Hresp as _ <-; exists fs, t; subst p; auto. }
  split; [exact Htop|].
  destruct Htop as [fs [t [_ [_ ->]]]]. apply trim_ends.
Qed.

Lemma topArticles_trimmed_witness :
  starts_with_white_space "a1, b1" = false
  /\ ends_with_white_space "a1, b1" = false
  /\ JS.trim "a1, b1" = "a1, b1".
Proof.
  apply (topArticles_trimmed
           (Fixture.with_axios (Returns (Fixture.completion Fixture.padded)) Fixture.env_ok)
           {| feeds := Some [Fixture.feedA; Fixture.feedB]; openAiContext := Some "AI news" |}
           Fixture.world _ "a1, b1" eq_refl).
Defined.

(** Every code point of the list is removed, at both ends, and nothing
    else: NEL (U+0085) and the zero width space (U+200B) stay. *)
Example trim_removes_all :
  JS.trim (string_of_list_ascii (List.concat JS.white_space)
           ++ "a b"
           ++ string_of_list_ascii (List.concat JS.white_space))
  = "a b".
Proof. reflexivity. Qed.

Example trim_keeps_others :
  JS.trim (string_of_list_ascii (map ascii_of_nat [194; 133; 226; 128; 139]%nat))
  = string_of_list_ascii (map ascii_of_nat [194; 133; 226; 128; 139]%nat).
Proof. reflexivity. Qed.

(** ** Edges of POST /fetch-articles *)

(** X12.  The filter of line 120 has no upper bound: an item of a fetched
    feed dated tomorrow or later is among the articles of a 200 answer, as
    an item of today is. *)
Theorem future_items_are_returned (env : Env) (b : FetchBody) (fs : list string) (w : World)
  (arts : list Article.t) (top : string) (u : string) (it : Item.t) (t : Z) :
  feeds b = Some fs ->
  fst (fetch_articles env b w) = Returns (json 200 (Articles arts top)) ->
  In u fs ->
  In it (items_of env u) ->
  Date_of env (Item.pubDate it) = Some t ->
  JS.setHours0 (LocalTZA env) (clock w) + JS.msPerDay <= t ->
  In (mkArticle u it) arts.
Proof.
  intros Hf Hresp Hu Hit Hdate Hlate.
  assert (Harts : arts = todayArticles env (JS.setHours0 (LocalTZA env) (clock w)) fs).
  { destruct (fetch_articles_run env b w)
      as [Hf' | pre u' post Hf' Hpre Hu' | fs' Hf' Hall Hk
          | fs' p Hf' Hall Hk Hp Ht | fs' p t' d e Hf' Hall Hk Hp Ht Hd Hi
          | fs' p t' d e Hf' Hall Hk Hp Ht Hd Hi | fs' p t' d Hf' Hall Hk Hp Ht Hd Hi];
      cbn [fst] in Hresp; try discriminate;
      injection Hresp as <- _; rewrite Hf in Hf'; now injection Hf' as <-. }
  subst arts. unfold todayArticles. apply in_flat_map. exists u. split; [exact Hu|].
  apply in_map. apply filter_In. split; [exact Hit|].
  apply isToday_iff. exists t. split; [exact Hdate|].
  unfold JS.msPerDay in Hlate. lia.
Qed.

Lemma future_items_are_returned_witness :
  In (mkArticle "https://c.example/rss"
        (Fixture.item "c1" "next week" None None))
     [mkArticle "https://c.example/rss" (Fixture.item "c1" "next week" None None)].
Proof.
  apply (future_items_are_returned
           {| OPENAI_API_KEY := Some "sk-test";
              LocalTZA := fun _ _ => 0;
              latency := fun _ => 5;
              Date_parse := fun _ => Some (Fixture.midnight + 7 * JS.msPerDay);
              parseURL := fun _ =>
                Returns (Some {| items := [Fixture.item "c1" "next week" None None] |});
              auth_deleteUser := fun _ => Returns None;
              users_delete := fun _ => Returns None;
              scan_logs_select := fun _ => Returns None;
              scan_logs_insert := fun _ => Returns None;
              axios_post := fun _ => Returns (Fixture.completion "c1") |}
           {| feeds := Some ["https://c.example/rss"]; openAiContext := Some "AI news" |}
           ["https://c.example/rss"] Fixture.world _ "c1" "https://c.example/rss"
           (Fixture.item "c1" "next week" None None)
           (Fixture.midnight + 7 * JS.msPerDay) eq_refl eq_refl).
  - now left.
  - now left.
  - reflexivity.
  - vm_compute. discriminate.
Defined.

(** X13.  A completion answer that comes back without the text the handler
    reads (no [choices], an empty [choices], or a first choice without
    [text]) is handled like a failed call: 500 with the message of line 178,
    after the single completion call, with no insert made. *)
Theorem malformed_completion (env : Env) (b : FetchBody) (fs : list string) (w : World)
  (d : Completion) :
  feeds b = Some fs ->
  forallb (feed_parses env) fs = true ->
  JS.truthy (OPENAI_API_KEY env) = true ->
  axios_post env (prompt (openAiContext b)
                  ++ promptText (todayArticles env (JS.setHours0 (LocalTZA env) (clock w)) fs))
    = Returns d ->
  (choices d = None \/ choices d = Some []
   \/ exists c cs, choices d = Some (c :: cs) /\ text c = None) ->
  fetch_articles env b w
  = (Returns (json 500 (Message "Error during OpenAI request")),
     ticks env
       (parse_calls fs
        ++ [CompletionPost
              (prompt (openAiContext b)
               ++ promptText (todayArticles env (JS.setHours0 (LocalTZA env) (clock w)) fs))])
       w).
Proof.
  intros Hf Hall Hk Hpost Hbad.
  rewrite (fetch_articles_parses env b fs w Hf Hall).
  fold (todayArticles env (JS.setHours0 (LocalTZA env) (clock w)) fs).
  rewrite rank_and_log_no_text; [|exact Hk|].
  - rewrite ticks_app. reflexivity.
  - unfold completion_text. rewrite Hpost.
    destruct Hbad as [-> | [-> | [c [cs [-> Hc]]]]]; auto.
Qed.

Lemma malformed_completion_witness :
  fst (fetch_articles
         (Fixture.with_axios (Returns {| choices := Some [] |}) Fixture.env_ok)
         {| feeds := Some [Fixture.feedA]; openAiContext := Some "AI news" |}
         Fixture.world)
  = Returns (json 500 (Message "Error during OpenAI request")).
Proof.
  rewrite (malformed_completion
             (Fixture.with_axios (Returns {| choices := Some [] |}) Fixture.env_ok)
             {| feeds := Some [Fixture.feedA]; openAiContext := Some "AI news" |}
             [Fixture.feedA] Fixture.world {| choices := Some [] |}
             eq_refl eq_refl eq_refl eq_refl (or_intror (or_introl eq_refl))).
  reflexivity.
Defined.

(** X14.  The answer of the insert of line 172 is not looked at.  When the
    store reports an error for it, the request is still answered 200 with
    the articles, and no row is written; when the insert throws, the answer
    is the 500 of the completion call's [catch], although the completion
    call had succeeded, and no row is written. *)
Theorem insert_answer_ignored (env : Env) (b : FetchBody) (fs : list string) (w : World)
  (t : string) :
  feeds b = Some fs ->
  forallb (feed_parses env) fs = true ->
  JS.truthy (OPENAI_API_KEY env) = true ->
  completion_text
    (axios_post env
       (prompt (openAiContext b)
        ++ promptText (todayArticles env (JS.setHours0 (LocalTZA env) (clock w)) fs)))
    = Some t ->
  ((forall d, exists e, scan_logs_insert env d = Returns (Some e)) ->
     fst (fetch_articles env b w)
       = Returns (json 200 (Articles
                    (todayArticles env (JS.setHours0 (LocalTZA env) (clock w)) fs)
                    (JS.trim t)))
     /\ scan_logs (snd (fetch_articles env b w)) = scan_logs w)
  /\ ((forall d, exists e, scan_logs_insert env d = Throws e) ->
      fst (fetch_articles env b w)
        = Returns (json 500 (Message "Error during OpenAI request"))
      /\ scan_logs (snd (fetch_articles env b w)) = scan_logs w).
Proof.
  intros Hf Hall Hk Ht.
  rewrite (fetch_articles_parses env b fs w Hf Hall).
  fold (todayArticles env (JS.setHours0 (LocalTZA env) (clock w)) fs).
  rewrite (rank_and_log_text env _ _ _ t Hk Ht).
  split; intro Hins.
  - destruct (Hins (clock (tick env
                 (CompletionPost
                    (prompt (openAiContext b)
                     ++ promptText
                          (todayArticles env (JS.setHours0 (LocalTZA env) (clock w)) fs)))
                 (ticks env (parse_calls fs) w)))) as [e ->].
    cbn [fst snd tick scan_logs]. now rewrite ticks_scan_logs.
  - destruct (Hins (clock (tick env
                 (CompletionPost
                    (prompt (openAiContext b)
                     ++ promptText
                          (todayArticles env (JS.setHours0 (LocalTZA env) (clock w)) fs)))
                 (ticks env (parse_calls fs) w)))) as [e ->].
    cbn [fst snd tick scan_logs]. now rewrite ticks_scan_logs.
Qed.

Lemma insert_answer_ignored_witness :
  fst (fetch_articles
         (Fixture.with_insert (Returns (Some {| message := "permission denied" |}))
                              Fixture.env_ok)
         {| feeds := Some []; openAiContext := Some "AI news" |} Fixture.world)
    = Returns (json 200 (Articles [] "a1, b1"))
  /\ scan_logs (snd (fetch_articles
                       (Fixture.with_insert (Returns (Some {| message := "permission denied" |}))
                                            Fixture.env_ok)
                       {| feeds := Some []; openAiContext := Some "AI news" |} Fixture.world))
     = scan_logs Fixture.world.
Proof.
  apply (proj1 (insert_answer_ignored
           (Fixture.with_insert (Returns (Some {| message := "permission denied" |}))
                                Fixture.env_ok)
           {| feeds := Some []; openAiContext := Some "AI news" |} [] Fixture.world
           " a1, b1 " eq_refl eq_refl eq_refl eq_refl)).
  intro d. eexists. reflexivity.
Defined.

(** ** The parser, seen by two handlers *)

Lemma todayArticles_app (env : Env) (start : Z) (l1 l2 : list string) :
  todayArticles env start (l1 ++ l2)
  = (todayArticles env start l1 ++ todayArticles env start l2)%list.
Proof. unfold todayArticles. apply flat_map_app. Qed.

Lemma validate_feed_valid_iff (env : Env) (u : string) (w : World) :
  fst (validate_feed env {| url := Some u |} w)
    = Returns (json 200 (Message "RSS feed is valid"))
  <-> feed_parses env u = true.
Proof.
  unfold validate_feed, try_catch, bind, parser_parseURL, ret, feed_parses. cbn [url].
  destruct (parseURL env (Some u)) as [[f|]|e]; cbn; split; try reflexivity; discriminate.
Qed.

(** X15.  POST /fetch-articles stops on a feed exactly when POST
    /validate-feed does not find that feed valid.  When every feed of the
    request is found valid, no answer is a feed error; when some feed is
    not, the answer is the feed error of the first such feed. *)
Theorem validate_then_fetch (env : Env) (b : FetchBody) (fs : list string) (w0 w : World) :
  feeds b = Some fs ->
  ((forall u, In u fs ->
      fst (validate_feed env {| url := Some u |} w0)
        = Returns (json 200 (Message "RSS feed is valid"))) ->
   forall u, fst (fetch_articles env b w)
             <> Returns (json 500 (Message ("Error fetching articles from " ++ u))))
  /\ (forall pre u post,
        fs = (pre ++ u :: post)%list ->
        (forall v, In v pre ->
           fst (validate_feed env {| url := Some v |} w0)
             = Returns (json 200 (Message "RSS feed is valid"))) ->
        fst (validate_feed env {| url := Some u |} w0)
          <> Returns (json 200 (Message "RSS feed is valid")) ->
        fst (fetch_articles env b w)
          = Returns (json 500 (Message ("Error fetching articles from " ++ u)))).
Proof.
  intro Hf. split.
  - intros Hvalid u Hresp.
    assert (Hall : forallb (feed_parses env) fs = true).
    { apply forallb_forall. intros v Hv. apply (validate_feed_valid_iff env v w0).
      now apply Hvalid. }
    destruct (fetch_articles_run env b w)
      as [Hf' | pre u' post Hf' Hpre Hu' | fs' Hf' Hall' Hk
          | fs' p Hf' Hall' Hk Hp Ht | fs' p t' d e Hf' Hall' Hk Hp Ht Hd Hi
          | fs' p t' d e Hf' Hall' Hk Hp Ht Hd Hi | fs' p t' d Hf' Hall' Hk Hp Ht Hd Hi];
      cbn [fst] in Hresp; try discriminate; try congruence.
    rewrite Hf in Hf'. injection Hf' as ->.
    rewrite forallb_app in Hall. apply andb_true_iff in Hall. destruct Hall as [_ Hall].
    cbn in Hall. rewrite Hu' in Hall. discriminate.
  - intros pre u post -> Hpre Hu.
    rewrite (fetch_articles_fails env b pre u post w Hf); [reflexivity| |].
    + apply forallb_forall. intros v Hv. apply (validate_feed_valid_iff env v w0).
      now apply Hpre.
    + destruct (feed_parses env u) eqn:Hp; [|reflexivity].
      exfalso. apply Hu. now apply validate_feed_valid_iff.
Qed.

Lemma validate_then_fetch_witness :
  fst (fetch_articles Fixture.env_ok
         {| feeds := Some [Fixture.feedA; "https://nowhere.example"];
            openAiContext := Some "AI news" |}
         Fixture.world)
  = Returns (json 500 (Message "Error fetching articles from https://nowhere.example")).
Proof.
  apply (proj2 (validate_then_fetch Fixture.env_ok
                  {| feeds := Some [Fixture.feedA; "https://nowhere.example"];
                     openAiContext := Some "AI news" |}
                  [Fixture.feedA; "https://nowhere.example"]
                  Fixture.world Fixture.world eq_refl)
               [Fixture.feedA] "https://nowhere.example" [] eq_refl).
  - intros v [<-|[]]. reflexivity.
  - vm_compute. discriminate.
Defined.

(** X16.  Nothing is deduplicated: a feed URL listed twice is fetched twice,
    and each of its articles of today is returned twice. *)
Theorem repeated_feed_repeats_articles (env : Env) (b : FetchBody)
  (l1 l2 l3 : list string) (u : string) (w : World)
  (arts : list Article.t) (top : string) (a : Article.t) :
  feeds b = Some (l1 ++ u :: l2 ++ u :: l3)%list ->
  fst (fetch_articles env b w) = Returns (json 200 (Articles arts top)) ->
  In a (todayArticles env (JS.setHours0 (LocalTZA env) (clock w)) [u]) ->
  (exists a1 a2 a3, arts = (a1 ++ a :: a2 ++ a :: a3)%list)
  /\ exists rest,
       trace (snd (fetch_articles env b w))
       = (trace w ++ parse_calls l1 ++ ParseURL (Some u) :: parse_calls l2
                  ++ ParseURL (Some u) :: parse_calls l3 ++ rest)%list.
Proof.
  intros Hf Hresp Ha.
  set (start := JS.setHours0 (LocalTZA env) (clock w)) in *.
  assert (Hrun : arts = todayArticles env start (l1 ++ u :: l2 ++ u :: l3)
                 /\ exists rest,
                      trace (snd (fetch_articles env b w))
                      = (trace w ++ parse_calls (l1 ++ u :: l2 ++ u :: l3) ++ rest)%list).
  { destruct (fetch_articles_run env b w)
      as [Hf' | pre u' post Hf' Hpre Hu' | fs' Hf' Hall Hk
          | fs' p Hf' Hall Hk Hp Ht | fs' p t' d e Hf' Hall Hk Hp Ht Hd Hi
          | fs' p t' d e Hf' Hall Hk Hp Ht Hd Hi | fs' p t' d Hf' Hall Hk Hp Ht Hd Hi];
      cbn [fst] in Hresp; try discriminate;
      injection Hresp as <- _; rewrite Hf in Hf'; injection Hf' as <-;
      (split; [reflexivity|]);
      cbn [snd logged trace]; rewrite ticks_trace;
      exists [CompletionPost p; ScanLogsInsert d]; reflexivity. }
  destruct Hrun as [-> [rest Htrace]].
  split.
  - destruct (in_split _ _ Ha) as [x1 [x2 Hx]].
    change (u :: l2 ++ u :: l3)%list with ([u] ++ l2 ++ [u] ++ l3)%list.
    rewrite !todayArticles_app, Hx.
    exists (todayArticles env start l1 ++ x1)%list,
           (x2 ++ todayArticles env start l2 ++ x1)%list,
           (x2 ++ todayArticles env start l3)%list.
    repeat (progress (rewrite <- ?app_assoc; cbn [app])). reflexivity.
  - exists rest. rewrite Htrace. unfold parse_calls.
    rewrite !map_app. cbn [map]. rewrite !map_app. cbn [map].
    repeat (progress (rewrite <- ?app_assoc; cbn [app])). reflexivity.
Qed.

Lemma repeated_feed_repeats_articles_witness :
  exists a1 a2 a3,
    [mkArticle Fixture.feedB (Fixture.item "b1" "today 00:00" None (Some "snip b1"));
     mkArticle Fixture.feedB (Fixture.item "b1" "today 00:00" None (Some "snip b1"))]
    = (a1 ++ mkArticle Fixture.feedB (Fixture.item "b1" "today 00:00" None (Some "snip b1"))
          :: a2
          ++ mkArticle Fixture.feedB (Fixture.item "b1" "today 00:00" None (Some "snip b1"))
          :: a3)%list.
Proof.
  apply (repeated_feed_repeats_articles Fixture.env_ok
           {| feeds := Some [Fixture.feedB; Fixture.feedB]; openAiContext := Some "AI news" |}
           [] [] [] Fixture.feedB Fixture.world _ "a1, b1"
           (mkArticle Fixture.feedB (Fixture.item "b1" "today 00:00" None (Some "snip b1")))
           eq_refl eq_refl).
  now left.
Defined.
